(** * The NEAT_Trainer orchestration engine of [flight_maneuvers/train.py]

    A shallow embedding of the trainer class: the optimizer/scheduler
    normalizer, the scheduler stepping policy, the checkpoint manager, the
    training and validation loop drivers and [fit].  Python dictionaries
    that are only looked up by key are finite maps; the dictionary whose
    keys are printed in an error message keeps its insertion order.  The
    trainer object, the dictionaries it shares with its caller, the global
    gradient switch, the file system and the calls made to the external
    collaborators (callbacks, optimizer, model hooks) form one explicit
    state that is threaded through an exception monad.  Of the training
    module the file embeds [configure_optimizers], over the constructors of
    the optimisation library; of the progress bar, the wrapper and the
    postfix formatter, over the number format. *)

From Stdlib Require Import ZArith QArith Ascii.
From stdpp Require Import base option list gmap strings pretty sorting.

Open Scope Z_scope.

(** ** Python values and exceptions *)

(** A detached scalar tensor: only stored and handed on, never computed with. *)
Inductive tensor := Tensor (value : Q).

(** What a [training_step] / [validation_step] returns: a bare tensor, a
    mapping from metric names to tensors (in the mapping's iteration
    order), or anything else, such as [None]. *)
Inductive output :=
| OTensor (t : tensor)
| OMapping (items : list (string * tensor))
| OOther.

Inductive optimizer := Optimizer (name : string).
Inductive lr_scheduler := LRScheduler (name : string).

(** The values found in a scheduler configuration mapping. *)
Inductive cfgval :=
| CNone
| CStr (s : string)
| CInt (z : Z)
| CScheduler (s : lr_scheduler).

(** The objects the normalizer inspects and the checkpoint state holds.
    [PyOptimizer] stands for the objects that pass
    [isinstance(_, Optimizable)], [PyScheduler] for those that pass
    [isinstance(_, LRScheduler)], [PyMapping] for [Mapping]s and [PySeq] for
    lists and tuples. *)
#[warnings="-register-all"]
Inductive pyobj :=
| PyNone
| PyInt (z : Z)
| PyModel (name : string)
| PyOptimizer (o : optimizer)
| PyScheduler (s : lr_scheduler)
| PyMapping (m : gmap string cfgval)
| PySeq (items : list pyobj).

(** The exceptions the trainer code can raise or let through.
    [KeyError_invalid_monitor] is the [KeyError] of [step_scheduler], with
    the two values its message interpolates; [RuntimeError_unused_values] is
    the [RuntimeError] of [load], with the leftover record it prints;
    [RuntimeError_no_grad] is the [RuntimeError] of a backward pass on a
    loss that carries no graph. *)
Inductive exn :=
| KeyError (key : string)
| KeyError_invalid_monitor (monitor : cfgval) (possible_keys : list (option string))
| TypeError (msg : string)
| NotImplementedError (msg : string)
| RuntimeError_unused_values (remainder : gmap string pyobj)
| RuntimeError_no_grad
| AssertionError
| ZeroDivisionError
| IndexError
| FileNotFoundError (path : string).

(** Outcome of a computation that may raise. *)
Inductive result (A : Type) :=
| Ret (a : A)
| Raise (e : exn).
Arguments Ret {A} a.
Arguments Raise {A} e.

(** ** os.path and the checkpoint directory *)

(** A directory maps entry names to persisted records; the file system maps
    directory paths to directories.  A directory is known by the spelling of
    its path that [os.path.split] gives for the files in it, without a slash
    at its end; another spelling of the same directory is another key. *)
Abbreviation filesystem record := (gmap string (gmap string record)).

Definition os_path_isdir {record} (fs : filesystem record) (d : string) : bool :=
  bool_decide (is_Some (fs !! d)).

(** [os.listdir]: the entry names, in the order the map enumerates them. *)
Definition os_listdir {record} (fs : filesystem record) (d : string) : list string :=
  match fs !! d with
  | Some entries => (map_to_list entries).*1
  | None => []
  end.

Definition starts_with_slash (s : string) : bool :=
  match s with
  | String "/"%char _ => true
  | _ => false
  end.

Fixpoint ends_with_slash (s : string) : bool :=
  match s with
  | EmptyString => false
  | String c EmptyString => bool_decide (c = "/"%char)
  | String _ rest => ends_with_slash rest
  end.

(** [os.path.join a b] on POSIX, for two components. *)
Definition os_path_join (a b : string) : string :=
  if starts_with_slash b then b
  else if bool_decide (a = "") || ends_with_slash a then a +:+ b
  else a +:+ "/" +:+ b.

(** [sorted(items)] on strings: a stable merge sort by code point. *)
Definition sorted (items : list string) : list string :=
  merge_sort String.le items.

(** [NEAT_Trainer.get_latest_checkpoint] (a static method). *)
Definition get_latest_checkpoint {record} (fs : filesystem record)
    (checkpoint_dir : string) : option string :=
  if negb (os_path_isdir fs checkpoint_dir) then None
  else
    let items := sorted (os_listdir fs checkpoint_dir) in
    match last items with
    | None => None
    | Some item => Some (os_path_join checkpoint_dir item)
    end.

(** ** The optimizer/scheduler normalizer *)

(** [d.update(other)]: the dictionary after the call, and the value of the
    call expression, which is [None]. *)
Definition dict_update (d other : gmap string cfgval) : gmap string cfgval * pyobj :=
  (other ∪ d, PyNone).

(** [x[0]]. Optimizers, schedulers and models define no item access. *)
Definition getitem_0 (x : pyobj) : result pyobj :=
  match x with
  | PySeq (y :: _) => Ret y
  | PySeq [] => Raise IndexError
  | PyMapping _ => Raise (KeyError "0")
  | _ => Raise (TypeError "object is not subscriptable")
  end.

Definition is_Optimizable (x : pyobj) : bool :=
  match x with PyOptimizer _ => true | _ => false end.

Definition is_LRScheduler_or_Mapping (x : pyobj) : bool :=
  match x with PyScheduler _ | PyMapping _ => true | _ => false end.

(** [all(pred(c) for c in xs)] *)
Definition all (pred : pyobj → bool) (xs : list pyobj) : bool := forallb pred xs.

Definition _lr_sched_defaults : gmap string cfgval :=
  {[ "interval" := CStr "epoch"; "frequency" := CInt 1; "monitor" := CStr "val_loss" ]}.

(** [NEAT_Trainer._parse_optimizers_schedulers]: the pair it returns, or
    the exception it raises. *)
Fixpoint _parse_optimizers_schedulers (configure_optim_output : pyobj)
    : result (pyobj * pyobj) :=
  match configure_optim_output with
  (* single optimizer *)
  | PyOptimizer _ => Ret (configure_optim_output, PyNone)
  (* single lr scheduler *)
  | PyScheduler s =>
      Ret (PyNone, (dict_update _lr_sched_defaults {[ "scheduler" := CScheduler s ]}).2)
  (* single lr scheduler config *)
  | PyMapping m =>
      Ret (PyNone, PyMapping (dict_update _lr_sched_defaults m).1)
  (* list or tuple *)
  | PySeq items =>
      if all is_Optimizable items then
        (* single optimizer in list *)
        match items with
        | [item0] =>
            match getitem_0 item0 with
            | Ret opt => Ret (opt, PyNone)
            | Raise e => Raise e
            end
        | _ => Raise (NotImplementedError "BYOT only supports a single optimizer")
        end
      else if all is_LRScheduler_or_Mapping items then
        (* single scheduler in list *)
        match items with
        | [item0] =>
            match _parse_optimizers_schedulers item0 with
            | Ret r => Ret (PyNone, r.2)
            | Raise e => Raise e
            end
        | _ => Ret (PyNone, PyNone)
        end
      else
        (* optimizer and lr scheduler *)
        match items with
        | [item0; item1] =>
            match _parse_optimizers_schedulers item0 with
            | Ret r0 =>
                match _parse_optimizers_schedulers item1 with
                | Ret r1 => Ret (r0.1, r1.2)
                | Raise e => Raise e
                end
            | Raise e => Raise e
            end
        | _ => Ret (PyNone, PyNone)
        end
  | _ => Ret (PyNone, PyNone)
  end.

(** ** The trainer, its environment and the exception monad *)

Inductive batch := Batch (id : nat).

(** The [LightningModule] as the trainer sees it.  [validation_step] is
    [None] when the module does not override it. *)
Record lightning_module := {
  configure_optimizers : pyobj;
  model_training_step : batch → Z → output;
  model_validation_step : option (batch → Z → output);
}.

(** Calls that leave the trainer, in the order they are made. *)
Inductive event :=
| fabric_call_ev (hook_name : string)
| training_step_ev (batch_idx : Z)
| backward_ev
| optimizer_step_ev
| optimizer_zero_grad_ev
| validation_step_ev (batch_idx : Z)
| lr_scheduler_step_ev (scheduler : cfgval) (monitor : option tensor)
| rank_zero_warn_ev
| fabric_save_ev (path : string)
| fabric_load_ev (path : string).

(** The attributes of a [NEAT_Trainer] instance. *)
Record trainer := {
  grad_accum_steps : Z;
  should_stop : bool;
  global_step : Z;
  current_epoch : Z;
  max_steps : option Z;
  max_epochs : option Z;
  validation_frequency : Z;
  _current_train_return : output;
  _current_val_return : output;
  checkpoint_dir : string;
  strategy_is_fsdp : bool;
}.

(** [NEAT_Trainer.__init__] with its default arguments. *)
Definition CHECKPOINT_PATH : string := "logs/checkpoints".

Definition init_trainer : trainer := {|
  grad_accum_steps := 1;
  should_stop := false;
  global_step := 0;
  current_epoch := 0;
  max_steps := None;
  max_epochs := Some 1000;
  validation_frequency := 1;
  _current_train_return := OMapping [];
  _current_val_return := OMapping [];
  checkpoint_dir := CHECKPOINT_PATH;
  strategy_is_fsdp := false;
|}.

(** Dictionaries that are passed by reference live in [heap]. *)
Abbreviation loc := nat (only parsing).

Record world := {
  self : trainer;
  heap : gmap loc (gmap string pyobj);
  grad_enabled : bool;
  fs : filesystem (gmap string pyobj);
  trace : list event;
}.

Definition M (A : Type) : Type := world → result A * world.

Global Instance M_ret : MRet M := λ A a w, (Ret a, w).
Global Instance M_bind : MBind M := λ A B f m w,
  match m w with
  | (Ret a, w') => f a w'
  | (Raise e, w') => (Raise e, w')
  end.

Definition raise {A} (e : exn) : M A := λ w, (Raise e, w).
Definition lift {A} (r : result A) : M A := λ w, (r, w).
Definition get_self : M trainer := λ w, (Ret (self w), w).
Definition set_self (f : trainer → trainer) : M unit := λ w,
  (Ret (), {| self := f (self w); heap := heap w; grad_enabled := grad_enabled w;
              fs := fs w; trace := trace w |}).
Definition emit (e : event) : M unit := λ w,
  (Ret (), {| self := self w; heap := heap w; grad_enabled := grad_enabled w;
              fs := fs w; trace := trace w ++ [e] |}).
Definition torch_set_grad_enabled (b : bool) : M unit := λ w,
  (Ret (), {| self := self w; heap := heap w; grad_enabled := b;
              fs := fs w; trace := trace w |}).
Definition torch_is_grad_enabled : M bool := λ w, (Ret (grad_enabled w), w).
Definition get_fs : M (filesystem (gmap string pyobj)) := λ w, (Ret (fs w), w).
Definition set_fs (fs' : filesystem (gmap string pyobj)) : M unit := λ w,
  (Ret (), {| self := self w; heap := heap w; grad_enabled := grad_enabled w;
              fs := fs'; trace := trace w |}).
Definition get_heap : M (gmap loc (gmap string pyobj)) := λ w, (Ret (heap w), w).
Definition set_heap (h : gmap loc (gmap string pyobj)) : M unit := λ w,
  (Ret (), {| self := self w; heap := h; grad_enabled := grad_enabled w;
              fs := fs w; trace := trace w |}).

(** A new dictionary object. *)
Definition alloc (d : gmap string pyobj) : M loc :=
  h ← get_heap;
  let l := fresh (dom h) in
  set_heap (<[l := d]> h);; mret l.

(** The dictionary a reference points to. *)
Definition deref (l : loc) : M (gmap string pyobj) :=
  h ← get_heap; mret (default ∅ (h !! l)).

(** [self.fabric.call(hook_name, ...)]: dispatch to the callbacks. *)
Definition fabric_call (hook_name : string) : M unit := emit (fabric_call_ev hook_name).

(** Field updates of [self]. *)
Definition with_should_stop (b : bool) (t : trainer) : trainer :=
  {| grad_accum_steps := grad_accum_steps t; should_stop := b;
     global_step := global_step t; current_epoch := current_epoch t;
     max_steps := max_steps t; max_epochs := max_epochs t;
     validation_frequency := validation_frequency t;
     _current_train_return := _current_train_return t;
     _current_val_return := _current_val_return t;
     checkpoint_dir := checkpoint_dir t; strategy_is_fsdp := strategy_is_fsdp t |}.

Definition with_global_step (g : Z) (t : trainer) : trainer :=
  {| grad_accum_steps := grad_accum_steps t; should_stop := should_stop t;
     global_step := g; current_epoch := current_epoch t;
     max_steps := max_steps t; max_epochs := max_epochs t;
     validation_frequency := validation_frequency t;
     _current_train_return := _current_train_return t;
     _current_val_return := _current_val_return t;
     checkpoint_dir := checkpoint_dir t; strategy_is_fsdp := strategy_is_fsdp t |}.

Definition with_current_epoch (e : Z) (t : trainer) : trainer :=
  {| grad_accum_steps := grad_accum_steps t; should_stop := should_stop t;
     global_step := global_step t; current_epoch := e;
     max_steps := max_steps t; max_epochs := max_epochs t;
     validation_frequency := validation_frequency t;
     _current_train_return := _current_train_return t;
     _current_val_return := _current_val_return t;
     checkpoint_dir := checkpoint_dir t; strategy_is_fsdp := strategy_is_fsdp t |}.

Definition with_current_train_return (o : output) (t : trainer) : trainer :=
  {| grad_accum_steps := grad_accum_steps t; should_stop := should_stop t;
     global_step := global_step t; current_epoch := current_epoch t;
     max_steps := max_steps t; max_epochs := max_epochs t;
     validation_frequency := validation_frequency t;
     _current_train_return := o;
     _current_val_return := _current_val_return t;
     checkpoint_dir := checkpoint_dir t; strategy_is_fsdp := strategy_is_fsdp t |}.

Definition with_current_val_return (o : output) (t : trainer) : trainer :=
  {| grad_accum_steps := grad_accum_steps t; should_stop := should_stop t;
     global_step := global_step t; current_epoch := current_epoch t;
     max_steps := max_steps t; max_epochs := max_epochs t;
     validation_frequency := validation_frequency t;
     _current_train_return := _current_train_return t;
     _current_val_return := o;
     checkpoint_dir := checkpoint_dir t; strategy_is_fsdp := strategy_is_fsdp t |}.

(** Python's [a % b] on integers: the sign follows the divisor. *)
Definition py_mod (a b : Z) : M Z :=
  if bool_decide (b = 0) then raise ZeroDivisionError else mret (a `mod` b).

(** ** The scheduler stepping policy *)

(** Python's [dict] keeps its keys in insertion order; assigning to a key
    that is present keeps the key's place. *)
Section ODict.
Context {K V : Type} `{EqDecision K}.

Fixpoint od_set (k : K) (v : V) (d : list (K * V)) : list (K * V) :=
  match d with
  | [] => [(k, v)]
  | (k', v') :: d' =>
      if decide (k = k') then (k', v) :: d' else (k', v') :: od_set k v d'
  end.

Fixpoint od_get (k : K) (d : list (K * V)) : option V :=
  match d with
  | [] => None
  | (k', v') :: d' => if decide (k = k') then Some v' else od_get k d'
  end.

(** [d.update(other)] *)
Definition od_update (d other : list (K * V)) : list (K * V) :=
  foldl (λ acc kv, od_set kv.1 kv.2 acc) d other.

Definition od_keys (d : list (K * V)) : list K := d.*1.
End ODict.

(** [{prefix + k: v for k, v in ret.items()}] *)
Definition prefixed_items (prefix : string) (items : list (string * tensor))
    : list (option string * option tensor) :=
  foldl (λ acc kv, od_set (Some (prefix +:+ kv.1)) (Some kv.2) acc) [] items.

(** One of the two blocks that add the last training or validation output
    to [possible_monitor_vals].  For a bare tensor the source calls
    [update] with two positional arguments, which [dict] rejects. *)
Definition add_monitor_vals (prefix : string) (ret : output)
    (possible_monitor_vals : list (option string * option tensor))
    : M (list (option string * option tensor)) :=
  match ret with
  | OTensor _ => raise (TypeError "update expected at most 1 argument, got 2")
  | OMapping items => mret (od_update possible_monitor_vals (prefixed_items prefix items))
  | OOther => mret possible_monitor_vals
  end.

(** [scheduler_cfg[key]] *)
Definition cfg_getitem (scheduler_cfg : pyobj) (key : string) : M cfgval :=
  match scheduler_cfg with
  | PyMapping m =>
      match m !! key with
      | Some v => mret v
      | None => raise (KeyError key)
      end
  | _ => raise (TypeError "object is not subscriptable by a string")
  end.

(** [v != level] for a string [level] *)
Definition cfgval_ne_str (v : cfgval) (level : string) : bool :=
  match v with
  | CStr s => negb (bool_decide (s = level))
  | _ => true
  end.

(** [possible_monitor_vals[monitor]]: the key is hashed and compared;
    integers and schedulers equal no key of the dictionary. *)
Definition monitor_lookup (monitor : cfgval)
    (possible_monitor_vals : list (option string * option tensor))
    : option (option tensor) :=
  match monitor with
  | CNone => od_get None possible_monitor_vals
  | CStr s => od_get (Some s) possible_monitor_vals
  | _ => None
  end.

(** [NEAT_Trainer.step_scheduler] *)
Definition step_scheduler (model : lightning_module) (scheduler_cfg : pyobj)
    (level : string) (current_value : Z) : M unit :=
  match scheduler_cfg with
  (* no scheduler *)
  | PyNone => mret ()
  | _ =>
      interval ← cfg_getitem scheduler_cfg "interval";
      (* wrong interval (step vs. epoch) *)
      if cfgval_ne_str interval level then mret () else
      frequency ← cfg_getitem scheduler_cfg "frequency";
      r ← match frequency with
          | CInt f => py_mod current_value f
          | _ => raise (TypeError "unsupported operand type(s) for %")
          end;
      (* right interval, but wrong step wrt frequency *)
      if negb (bool_decide (r = 0)) then mret () else
      (* assemble potential monitored values *)
      t ← get_self;
      vals ← add_monitor_vals "train_" (_current_train_return t) [(None, None)];
      vals ← add_monitor_vals "val_" (_current_val_return t) vals;
      monitor_key ← cfg_getitem scheduler_cfg "monitor";
      match monitor_lookup monitor_key vals with
      | None => raise (KeyError_invalid_monitor monitor_key (od_keys vals))
      | Some monitor =>
          (* rely on model hook for actual step *)
          scheduler ← cfg_getitem scheduler_cfg "scheduler";
          emit (lr_scheduler_step_ev scheduler monitor)
      end
  end.

(** [NEAT_Trainer.should_validate] *)
Definition should_validate : M bool :=
  t ← get_self;
  r ← py_mod (current_epoch t) (validation_frequency t);
  mret (bool_decide (r = 0)).

(** ** The training and validation loop drivers *)

(** Modelled from the spec: the distributed backend's [backward(loss)]
    (section 6), which is not part of this repository.  The specification
    gives its signature only; what it does without gradient tracking is the
    behaviour of the tensor library's backward pass: a loss the module
    computed with the global switch off carries no graph, and the pass
    raises [RuntimeError]; with the switch on, the pass runs. *)
Definition fabric_backward : M unit :=
  enabled ← torch_is_grad_enabled;
  if (enabled : bool) then emit backward_ev else raise RuntimeError_no_grad.

(** [NEAT_Trainer.training_step] *)
Definition training_step (model : lightning_module) (b : batch) (batch_idx : Z)
    : M tensor :=
  emit (training_step_ev batch_idx);;
  let outputs := model_training_step model b batch_idx in
  loss ← match outputs with
         | OTensor t => mret t
         | OMapping items =>
             match od_get "loss" items with
             | Some t => mret t
             | None => raise (KeyError "loss")
             end
         | OOther => raise (TypeError "object is not subscriptable")
         end;
  fabric_call "on_before_backward";;
  fabric_backward;;
  fabric_call "on_after_backward";;
  set_self (with_current_train_return outputs);;
  mret loss.

(** [with torch.enable_grad(): ...]: the body runs with gradient tracking
    on; the switch is put back on the way out, also when the body raises. *)
Definition torch_enable_grad {A} (body : M A) : M A := λ w,
  let r := body (torch_set_grad_enabled true w).2 in
  (r.1, (torch_set_grad_enabled (grad_enabled w) r.2).2).

(** Modelled from the spec: one optimizer step whose closure computes the
    forward and the backward pass (section 4.2).  [optimizer.step(closure)]
    belongs to the tensor library, which is not part of this repository: its
    optimizers evaluate the closure once, under [torch.enable_grad()]
    whatever the global switch is, and then update the parameters. *)
Definition optimizer_step (closure : M tensor) : M unit :=
  torch_enable_grad closure;; emit optimizer_step_ev.

(** [x >= limit_batches], where [None] stands for [float("inf")]. *)
Definition ge_limit (x : Z) (limit_batches : option Z) : bool :=
  match limit_batches with
  | Some l => bool_decide (l ≤ x)
  | None => false
  end.

(** The body of the [for] loop of [train_loop], from batch [batch_idx] on. *)
Fixpoint train_batches (model : lightning_module) (iterable : list batch)
    (batch_idx : Z) (limit_batches : option Z) (scheduler_cfg : pyobj) : M unit :=
  match iterable with
  | [] => mret ()
  | b :: rest =>
      fabric_call "on_train_batch_start";;
      (* check if optimizer should step in gradient accumulation *)
      t ← get_self;
      r ← py_mod (global_step t) (grad_accum_steps t);
      let should_optim_step := bool_decide (r = 0) in
      (if should_optim_step then
         fabric_call "on_before_optimizer_step";;
         optimizer_step (training_step model b batch_idx);;
         fabric_call "on_before_zero_grad";;
         emit optimizer_zero_grad_ev
       else
         (* gradient accumulation -> no optimizer step *)
         training_step model b batch_idx;; mret ());;
      fabric_call "on_train_batch_end";;
      (if should_optim_step then
         t ← get_self;
         step_scheduler model scheduler_cfg "step" (global_step t)
       else mret ());;
      (* only increase global step if optimizer stepped *)
      set_self (λ t, with_global_step (global_step t + (if should_optim_step then 1 else 0)) t);;
      t ← get_self;
      if should_stop t || ge_limit (batch_idx + 1) limit_batches
         || match max_steps t with
            | Some m => bool_decide (m ≤ global_step t)
            | None => false
            end
      then set_self (with_should_stop true)
      else train_batches model rest (batch_idx + 1) limit_batches scheduler_cfg
  end.

(** [NEAT_Trainer.train_loop] *)
Definition train_loop (model : lightning_module) (train_loader : list batch)
    (limit_batches : option Z) (scheduler_cfg : pyobj) : M unit :=
  fabric_call "on_train_epoch_start";;
  train_batches model train_loader 0 limit_batches scheduler_cfg;;
  fabric_call "on_train_epoch_end".

(** The [for] loop of [val_loop]; the result tells whether the loop left
    the function through its [return]. *)
Fixpoint val_batches (validation_step : batch → Z → output) (iterable : list batch)
    (batch_idx : Z) (limit_batches : option Z) : M bool :=
  match iterable with
  | [] => mret false
  | b :: rest =>
      t ← get_self;
      (* end epoch if stopping training completely or max batches for this epoch reached *)
      if should_stop t || ge_limit batch_idx limit_batches then
        fabric_call "on_validation_epoch_end";; mret true
      else
        fabric_call "on_validation_batch_start";;
        emit (validation_step_ev batch_idx);;
        let out := validation_step b batch_idx in
        fabric_call "on_validation_batch_end";;
        set_self (with_current_val_return out);;
        val_batches validation_step rest (batch_idx + 1) limit_batches
  end.

(** [NEAT_Trainer.val_loop] *)
Definition val_loop (model : lightning_module) (val_loader : option (list batch))
    (limit_batches : option Z) : M unit :=
  match val_loader with
  (* no validation if val_loader wasn't passed *)
  | None => mret ()
  | Some loader =>
      match model_validation_step model with
      | None => emit rank_zero_warn_ev
      | Some validation_step =>
          fabric_call "on_validation_model_eval";;
          torch_set_grad_enabled false;;
          fabric_call "on_validation_epoch_start";;
          returned ← val_batches validation_step loader 0 limit_batches;
          if (returned : bool) then mret () else
          fabric_call "on_validation_epoch_end";;
          fabric_call "on_validation_model_train";;
          torch_set_grad_enabled true
      end
  end.

(** ** The checkpoint manager *)

(** [f"{n:04d}"]: decimal digits, zero-padded to four characters, the sign
    counting as one of them. *)
Fixpoint zero_pad (width : nat) (digits : string) : string :=
  match width with
  | O => digits
  | S w => if bool_decide (String.length digits ≤ w)%nat
           then "0" +:+ zero_pad w digits else digits
  end.

Definition format_04d (n : Z) : string :=
  if bool_decide (n < 0) then "-" +:+ zero_pad 3 (pretty (- n))
  else zero_pad 4 (pretty n).

(** [f"epoch-{current_epoch:04d}.ckpt"] *)
Definition checkpoint_name (current_epoch : Z) : string :=
  "epoch-" +:+ format_04d current_epoch +:+ ".ckpt".

(** [os.path.split]: the text before the last slash, without the slashes
    that end it, and the text after it. *)
Fixpoint split_last_slash (p : string) : option (string * string) :=
  match p with
  | EmptyString => None
  | String c rest =>
      match split_last_slash rest with
      | Some (head, tail) => Some (String c head, tail)
      | None => if bool_decide (c = "/"%char) then Some ("", rest) else None
      end
  end.

Fixpoint rstrip_slash (s : string) : string :=
  match s with
  | EmptyString => EmptyString
  | String c rest =>
      match rstrip_slash rest with
      | EmptyString => if bool_decide (c = "/"%char) then EmptyString else String c EmptyString
      | rest' => String c rest'
      end
  end.

Definition os_path_split (p : string) : string * string :=
  match split_last_slash p with
  | Some (head, tail) =>
      (match rstrip_slash head with
       | EmptyString => head +:+ "/"
       | head' => head'
       end, tail)
  | None => ("", p)
  end.

(** Modelled from the spec: the distributed backend's [save(path, state)]
    (section 6), which is not part of this repository.  It persists a
    snapshot of the mapping under [path], creating the directory, and leaves
    the mapping as it is. *)
Definition fabric_save (path : string) (state : loc) : M unit :=
  emit (fabric_save_ev path);;
  d ← deref state;
  files ← get_fs;
  let '(dir, name) := os_path_split path in
  set_fs (<[dir := <[name := d]> (default ∅ (files !! dir))]> files).

(** Modelled from the spec: the distributed backend's
    [load(path, state) -> leftover mapping] (section 6), which is not part
    of this repository.  Every key of [state] must be in the persisted
    record and is restored in place from it; the entries of the record under
    other keys are returned. *)
Definition fabric_load (path : string) (state : loc) : M (gmap string pyobj) :=
  emit (fabric_load_ev path);;
  files ← get_fs;
  let '(dir, name) := os_path_split path in
  match files !! dir ≫= (.!! name) with
  | None => raise (FileNotFoundError path)
  | Some checkpoint =>
      d ← deref state;
      match elements (dom d ∖ dom checkpoint) with
      | missing :: _ => raise (KeyError missing)
      | [] =>
          h ← get_heap;
          set_heap (<[state := filter (λ kv, kv.1 ∈ dom d) checkpoint]> h);;
          mret (checkpoint ∖ d)
      end
  end.

(** [remainder.pop(key)] for a counter.  The source assigns whatever the
    record holds under the key; the counters of [trainer] are integers, so a
    record with another value there is outside the model, which stops at it
    with a [TypeError] of its own. *)
Definition pop_counter (key : string) (remainder : gmap string pyobj)
    : M (Z * gmap string pyobj) :=
  match remainder !! key with
  | Some (PyInt z) => mret (z, delete key remainder)
  | Some _ => raise (TypeError "counter is not an integer")
  | None => raise (KeyError key)
  end.

(** [NEAT_Trainer.load] *)
Definition load (state : option loc) (path : string) : M unit :=
  state ← match state with
          | None => alloc ∅
          | Some l => mret l
          end;
  remainder ← fabric_load path state;
  '(g, remainder) ← pop_counter "global_step" remainder;
  set_self (with_global_step g);;
  '(e, remainder) ← pop_counter "current_epoch" remainder;
  set_self (with_current_epoch e);;
  if bool_decide (remainder = ∅) then mret ()
  else raise (RuntimeError_unused_values remainder).

(** [NEAT_Trainer.save] *)
Definition save (state : option loc) : M unit :=
  state ← match state with
          | None => alloc ∅
          | Some l => mret l
          end;
  t ← get_self;
  d ← deref state;
  h ← get_heap;
  set_heap (<[state := <["current_epoch" := PyInt (current_epoch t)]>
                        (<["global_step" := PyInt (global_step t)]> d)]> h);;
  fabric_save (os_path_join (checkpoint_dir t) (checkpoint_name (current_epoch t))) state.

(** ** The orchestrator *)

(** The [while not self.should_stop] loop of [fit], for at most [fuel]
    epochs; the result tells whether the loop came to its end. *)
Fixpoint fit_epochs (fuel : nat) (model : lightning_module)
    (train_loader : list batch) (val_loader : option (list batch))
    (scheduler_cfg : pyobj) (state : loc) : M bool :=
  t ← get_self;
  if should_stop t then mret true else
  match fuel with
  | O => mret false
  | S fuel' =>
      train_loop model train_loader None scheduler_cfg;;
      v ← should_validate;
      (if (v : bool) then val_loop model val_loader None else mret ());;
      t ← get_self;
      step_scheduler model scheduler_cfg "epoch" (current_epoch t);;
      set_self (λ t, with_current_epoch (current_epoch t + 1) t);;
      (* stopping condition on epoch level *)
      t ← get_self;
      (if match max_epochs t with
          | Some m => bool_decide (m ≤ current_epoch t)
          | None => false
          end
       then set_self (with_should_stop true) else mret ());;
      save (Some state);;
      fit_epochs fuel' model train_loader val_loader scheduler_cfg state
  end.

(** [NEAT_Trainer.fit] *)
Definition fit (fuel : nat) (model : lightning_module) (train_loader : list batch)
    (val_loader : option (list batch)) (ckpt_path : option string) : M bool :=
  t ← get_self;
  (* setup model and optimizer *)
  if strategy_is_fsdp t
  then raise (NotImplementedError "BYOT currently does not support FSDP") else
  '(optimizer, scheduler_cfg) ← lift (_parse_optimizers_schedulers (configure_optimizers model));
  match optimizer with
  | PyNone => raise AssertionError
  | _ =>
      (* assemble state (current epoch and global step will be added in save) *)
      state ← alloc {[ "model" := PyModel "model"; "optim" := optimizer;
                       "scheduler" := scheduler_cfg ]};
      (* load last checkpoint if available *)
      files ← get_fs;
      (match ckpt_path with
       | Some p =>
           if os_path_isdir files p then
             match get_latest_checkpoint files (checkpoint_dir t) with
             | Some latest_checkpoint_path =>
                 load (Some state) latest_checkpoint_path;;
                 (* check if we even need to train here *)
                 t ← get_self;
                 if match max_epochs t with
                    | Some m => bool_decide (m ≤ current_epoch t)
                    | None => false
                    end
                 then set_self (with_should_stop true) else mret ()
             | None => mret ()
             end
           else mret ()
       | None => mret ()
       end);;
      finished ← fit_epochs fuel model train_loader val_loader scheduler_cfg state;
      (* reset for next fit call *)
      (if (finished : bool) then set_self (with_should_stop false) else mret ());;
      mret finished
  end.

(** ** The training module's optimizer configuration *)

(** A hyperparameter value: a name or a number. *)
Inductive hval :=
| HStr (s : string)
| HNum (q : Q).

(** The hyperparameters [NEAT_TrainingModule.configure_optimizers] reads:
    the dictionaries passed as [optimizer] and [lr_scheduler], and
    [optimizer_name], which only the failure message asks for and which
    exists only when it was passed as a hyperparameter of its own. *)
Record hparams := {
  hp_optimizer : gmap string hval;
  hp_lr_scheduler : gmap string hval;
  hp_optimizer_name : option hval;
}.

(** What the module's code can raise; [TorchError] is whatever a constructor
    of the optimisation library raises. *)
Inductive module_exn :=
| ModKeyError (key : string)
| ModAttributeError (name : string)
| ModAssertionError (msg : string)
| TorchError (msg : string).

(** The constructors of the optimisation library the module calls, each
    with the arguments the module passes besides the constants. *)
Record torch_optim := {
  AdamW : hval → module_exn + optimizer;
  SGD : hval → module_exn + optimizer;
  StepLR : optimizer → hval → module_exn + lr_scheduler;
  ReduceLROnPlateau : optimizer → hval → module_exn + lr_scheduler;
  MultiStepLR : optimizer → module_exn + lr_scheduler;
}.

(** Sequencing of computations that may raise. *)
Definition and_then {E A B} (x : E + A) (f : A → E + B) : E + B :=
  match x with
  | inl e => inl e
  | inr a => f a
  end.

(** [d[key]] on a hyperparameter dictionary. *)
Definition hp_getitem (d : gmap string hval) (key : string) : module_exn + hval :=
  match d !! key with
  | Some v => inr v
  | None => inl (ModKeyError key)
  end.

(** [v == name] for a string literal [name]. *)
Definition hval_eq_str (v : hval) (name : string) : bool :=
  match v with
  | HStr s => bool_decide (s = name)
  | HNum _ => false
  end.

(** [NEAT_TrainingModule.configure_optimizers] *)
Definition NEAT_TrainingModule_configure_optimizers (torch : torch_optim) (hp : hparams)
    : module_exn + pyobj :=
  and_then (hp_getitem (hp_optimizer hp) "opt") (λ opt,
  and_then
    (if hval_eq_str opt "Adam" then
       and_then (hp_getitem (hp_optimizer hp) "lr") (AdamW torch)
     else
       and_then (hp_getitem (hp_optimizer hp) "opt") (λ opt,
       if hval_eq_str opt "SGD" then
         and_then (hp_getitem (hp_optimizer hp) "lr") (SGD torch)
       else
         match hp_optimizer_name hp with
         | Some _ => inl (ModAssertionError "Unknown optimizer")
         | None => inl (ModAttributeError "optimizer_name")
         end)) (λ optimizer,
  and_then (hp_getitem (hp_lr_scheduler hp) "lrs") (λ lrs,
  and_then
    (if hval_eq_str lrs "StepLR" then
       and_then (hp_getitem (hp_lr_scheduler hp) "step_size") (λ step_size,
       and_then (StepLR torch optimizer step_size) (λ _, inr ()))
     else inr ()) (λ _,
  and_then (hp_getitem (hp_lr_scheduler hp) "lrs") (λ lrs,
  and_then
    (if hval_eq_str lrs "ReduceLROnPlateau" then
       and_then (hp_getitem (hp_lr_scheduler hp) "min_lr") (ReduceLROnPlateau torch optimizer)
     else
       (* We will reduce the learning rate by 0.1 after 100 and 150 epochs *)
       MultiStepLR torch optimizer) (λ scheduler,
  inr (PySeq [PySeq [PyOptimizer optimizer]; PySeq [PyScheduler scheduler]]))))))).

(** ** The progress bar *)

(** [NEAT_Trainer.progbar_wrapper]: whether the result is a [tqdm] bar, and
    the batches it iterates over. *)
Definition progbar_wrapper (is_global_zero : bool) (iterable : list batch)
    : bool * list batch :=
  if is_global_zero then (true, iterable) else (false, iterable).

Section ProgressBar.
(** [format(x.item(), ".3f")] *)
Variable format_3f : tensor → string.

(** [NEAT_Trainer._format_iterable] (a static method): the text it hands to
    [prog_bar.set_postfix_str], when it calls it.  [OOther] stands for
    [None] as well as for values that are neither a tensor nor a mapping. *)
Definition _format_iterable (prog_bar_is_tqdm : bool) (candidates : output)
    (prefix : string) : option string :=
  if prog_bar_is_tqdm then
    let postfix_str :=
      match candidates with
      | OTensor t => "" +:+ (" " +:+ prefix +:+ "_loss: " +:+ format_3f t)
      | OMapping items =>
          foldl (λ postfix_str kv,
                   postfix_str +:+ (" " +:+ prefix +:+ "_" +:+ kv.1 +:+ ": " +:+ format_3f kv.2))
                "" items
      | OOther => ""
      end in
    if bool_decide (postfix_str = "") then None else Some postfix_str
  else None.
End ProgressBar.

(** * Vocabulary of the statements

    Observations on traces, the records and paths the checkpoint manager
    works with, and the concrete modules, trainers and file systems the
    examples run on. *)

Ltac run_M :=
  repeat (progress (unfold deref, alloc, fabric_call, py_mod, raise, lift,
                      get_self, set_self, emit, torch_set_grad_enabled,
                      torch_is_grad_enabled, get_fs, set_fs, get_heap, set_heap,
                      mbind, mret, M_bind, M_ret; cbn)).

(** The optimizer steps and the scheduler steps recorded in a trace. *)
Definition is_optimizer_step (e : event) : bool :=
  match e with optimizer_step_ev => true | _ => false end.


Definition is_training_step (e : event) : bool :=
  match e with training_step_ev _ => true | _ => false end.

Definition is_fabric_load (e : event) : bool :=
  match e with fabric_load_ev _ => true | _ => false end.

Definition count (p : event → bool) (tr : list event) : nat :=
  length (List.filter p tr).
Arguments count : simpl never.

(** The record [save] persists: the mapping with the two counters added. *)
Definition saved_record (t : trainer) (d : gmap string pyobj) : gmap string pyobj :=
  <["current_epoch" := PyInt (current_epoch t)]>
    (<["global_step" := PyInt (global_step t)]> d).

(** The file [save] writes to. *)
Definition checkpoint_path (t : trainer) : string :=
  os_path_join (checkpoint_dir t) (checkpoint_name (current_epoch t)).

(** The record stored under a path, if any. *)
Definition read_file (files : filesystem (gmap string pyobj)) (path : string)
    : option (gmap string pyobj) :=
  files !! (os_path_split path).1 ≫= (.!! (os_path_split path).2).

(** The file system after the record under [path] is replaced. *)
Definition write_file (files : filesystem (gmap string pyobj)) (path : string)
    (r : gmap string pyobj) : filesystem (gmap string pyobj) :=
  <[(os_path_split path).1 :=
     <[(os_path_split path).2 := r]> (default ∅ (files !! (os_path_split path).1))]> files.

Definition C10_world : world :=
  {| self := with_global_step 15 (with_current_epoch 3 init_trainer);
     heap := {[ 0%nat := {[ "model" := PyModel "net" ]} ]};
     grad_enabled := true; fs := ∅; trace := [] |}.

(** What is left of a persisted record once the entries named by the state
    mapping are restored and the two counters are popped. *)
Definition leftover (checkpoint d : gmap string pyobj) : gmap string pyobj :=
  delete "current_epoch" (delete "global_step" (checkpoint ∖ d)).

Definition C7_state : gmap string pyobj :=
  {[ "model" := PyModel "net"; "optim" := PyOptimizer (Optimizer "adam");
     "scheduler" := PyNone ]}.

Definition C7_world : world :=
  {| self := with_global_step 15 (with_current_epoch 3 init_trainer);
     heap := {[ 0%nat := C7_state ]};
     grad_enabled := true; fs := ∅; trace := [] |}.

Definition C8_files : filesystem nat :=
  {[ "ckpts" := {[ "epoch-0001.ckpt" := 1%nat; "epoch-0010.ckpt" := 10%nat;
                   "epoch-0002.ckpt" := 2%nat ]};
     "empty" := ∅ ]}.

(** The items a training or validation output contributes to the candidate
    mapping, where the code gets as far as building it. *)
Definition items_of (ret : output) : option (list (string * tensor)) :=
  match ret with
  | OTensor _ => None
  | OMapping items => Some items
  | OOther => Some []
  end.

(** The candidate mapping: the [None] entry, then the training items under
    ["train_"], then the validation items under ["val_"]. *)
Definition candidate_vals (train val : list (string * tensor))
    : list (option string * option tensor) :=
  od_update (od_update [(None, None)] (prefixed_items "train_" train))
            (prefixed_items "val_" val).

(** A scheduler configuration as the normalizer's mapping branch builds it. *)
Definition cfg_with (sch : lr_scheduler) (interval : string) (frequency : Z)
    (monitor : cfgval) : gmap string cfgval :=
  {[ "scheduler" := CScheduler sch; "interval" := CStr interval;
     "frequency" := CInt frequency; "monitor" := monitor ]}.

Definition world_with_returns (train val : output) : world :=
  {| self := with_current_val_return val (with_current_train_return train init_trainer);
     heap := ∅; grad_enabled := true; fs := ∅; trace := [] |}.

Definition no_module : lightning_module :=
  {| configure_optimizers := PyNone;
     model_training_step := λ _ _, OOther;
     model_validation_step := None |}.

Definition validating_module : lightning_module :=
  {| configure_optimizers := PyOptimizer (Optimizer "adam");
     model_training_step := λ _ _, OMapping [("loss", Tensor (1 # 2))];
     model_validation_step := Some (λ _ _, OMapping [("loss", Tensor (1 # 4))]) |}.

Definition fresh_world (t : trainer) : world :=
  {| self := t; heap := ∅; grad_enabled := true; fs := ∅; trace := [] |}.

Definition trainer_with (accum : Z) (epochs : option Z) (dir : string) : trainer :=
  {| grad_accum_steps := accum; should_stop := false; global_step := 0;
     current_epoch := 0; max_steps := None; max_epochs := epochs;
     validation_frequency := 1;
     _current_train_return := OMapping []; _current_val_return := OMapping [];
     checkpoint_dir := dir; strategy_is_fsdp := false |}.

(** What the rest of an epoch leaves unchanged in that case. *)
Definition accum_frame (w w' : world) : Prop :=
  global_step (self w') = global_step (self w) ∧
  grad_accum_steps (self w') = grad_accum_steps (self w) ∧
  count is_optimizer_step (trace w') = count is_optimizer_step (trace w).

(** The loss [training_step] extracts from the module's output, if any. *)
Definition loss_of (outputs : output) : option tensor :=
  match outputs with
  | OTensor t => Some t
  | OMapping items => od_get "loss" items
  | OOther => None
  end.

Definition resume_record : gmap string pyobj :=
  {[ "model" := PyModel "model"; "optim" := PyOptimizer (Optimizer "adam");
     "scheduler" := PyNone; "global_step" := PyInt 7; "current_epoch" := PyInt 1 ]}.

Definition resume_files : filesystem (gmap string pyobj) :=
  {[ "resume" := {[ "epoch-0001.ckpt" := resume_record ]} ]}.

Definition resume_world (t : trainer) : world :=
  {| self := t; heap := ∅; grad_enabled := true; fs := resume_files; trace := [] |}.

(** What the declared return type of the normalizer allows in its first
    component: [None] or an optimizer. *)
Definition optional_optimizer (x : pyobj) : Prop :=
  x = PyNone ∨ is_Optimizable x = true.

(** What every scheduler configuration the normalizer hands out provides:
    a mapping with the three keys [step_scheduler] reads before it looks
    at the scheduler itself. *)
Definition optional_scheduler_cfg (x : pyobj) : Prop :=
  x = PyNone ∨
  ∃ m, x = PyMapping m ∧
       is_Some (m !! "interval") ∧ is_Some (m !! "frequency") ∧ is_Some (m !! "monitor").

(** The entry a training or validation item becomes in the candidate
    mapping. *)
Definition prefixed (prefix : string) (kv : string * tensor) : option string * option tensor :=
  (Some (prefix +:+ kv.1), Some kv.2).

Definition is_backward (e : event) : bool :=
  match e with backward_ev => true | _ => false end.

Definition is_validation_step (e : event) : bool :=
  match e with validation_step_ev _ => true | _ => false end.

(** The calls a validation epoch may make. *)
Definition is_validation_event (e : event) : bool :=
  match e with
  | fabric_call_ev _ | validation_step_ev _ | rank_zero_warn_ev => true
  | _ => false
  end.

(** The output of the last of the batches a loop went through; [old] when
    it went through none. *)
Fixpoint last_output (step : batch → Z → output) (batches : list batch)
    (batch_idx : Z) (old : output) : output :=
  match batches with
  | [] => old
  | b :: rest => last_output step rest (batch_idx + 1) (step b batch_idx)
  end.

(** How many batches lie before the batch limit. *)
Definition batches_within (limit_batches : option Z) (batch_idx : Z)
    (iterable : list batch) : nat :=
  match limit_batches with
  | None => length iterable
  | Some l => Nat.min (length iterable) (Z.to_nat (l - batch_idx))
  end.

(** The calls of [n] validation batches, from index [batch_idx] on. *)
Fixpoint validation_events (n : nat) (batch_idx : Z) : list event :=
  match n with
  | O => []
  | S n' =>
      [fabric_call_ev "on_validation_batch_start"; validation_step_ev batch_idx;
       fabric_call_ev "on_validation_batch_end"] ++ validation_events n' (batch_idx + 1)
  end.

(** The calls of one training batch on which the optimizer steps. *)
Definition train_batch_events (batch_idx : Z) : list event :=
  [fabric_call_ev "on_train_batch_start"; fabric_call_ev "on_before_optimizer_step";
   training_step_ev batch_idx; fabric_call_ev "on_before_backward"; backward_ev;
   fabric_call_ev "on_after_backward"; optimizer_step_ev;
   fabric_call_ev "on_before_zero_grad"; optimizer_zero_grad_ev;
   fabric_call_ev "on_train_batch_end"].

(** The calls of [n] such batches, from index [batch_idx] on. *)
Fixpoint train_events (n : nat) (batch_idx : Z) : list event :=
  match n with
  | O => []
  | S n' => train_batch_events batch_idx ++ train_events n' (batch_idx + 1)
  end.

(** How far the batch limit and the step limit are, whichever is nearer;
    [None] when there is neither. *)
Definition steps_left (limit_batches max_steps : option Z) (batch_idx global_step : Z)
    : option Z :=
  match limit_batches, max_steps with
  | None, None => None
  | Some l, None => Some (l - batch_idx)
  | None, Some m => Some (m - global_step)
  | Some l, Some m => Some (Z.min (l - batch_idx) (m - global_step))
  end.

(** The number of batches an epoch goes through when every batch steps the
    optimizer: the stopping criterion is tested after a batch, so one batch
    runs even when a limit is already met. *)
Definition batches_run (limit_batches max_steps : option Z) (batch_idx global_step : Z)
    (iterable : list batch) : nat :=
  match steps_left limit_batches max_steps batch_idx global_step with
  | None => length iterable
  | Some z => Nat.min (length iterable) (Nat.max 1 (Z.to_nat z))
  end.

(** Whether that epoch ends on the stopping criterion. *)
Definition stops (limit_batches max_steps : option Z) (batch_idx global_step : Z)
    (iterable : list batch) : bool :=
  match steps_left limit_batches max_steps batch_idx global_step with
  | None => false
  | Some z => bool_decide (Nat.max 1 (Z.to_nat z) ≤ length iterable)%nat
  end.

(** The world after a new, empty dictionary is allocated. *)
Definition with_empty_dict (w : world) : world :=
  {| self := self w; heap := <[fresh (dom (heap w)) := ∅]> (heap w);
     grad_enabled := grad_enabled w; fs := fs w; trace := trace w |}.

Definition is_fabric_save (e : event) : bool :=
  match e with fabric_save_ev _ => true | _ => false end.

Definition leftover_world : world :=
  {| self := init_trainer;
     heap := {[ 0%nat := {[ "model" := PyModel "net" ]} ]};
     grad_enabled := true;
     fs := write_file ∅ "ckpts/epoch-0003.ckpt"
             {[ "model" := PyModel "net"; "optim" := PyOptimizer (Optimizer "adam");
                "global_step" := PyInt 15; "current_epoch" := PyInt 3 ]};
     trace := [] |}.

(** The names of two consecutive epochs are in strictly ascending order. *)
Definition names_ascend (n : Z) : bool :=
  bool_decide (String.le (checkpoint_name n) (checkpoint_name (n + 1)))
  && negb (bool_decide (checkpoint_name n = checkpoint_name (n + 1))).

Definition epoch_files : filesystem nat :=
  {[ "ckpts" := {[ checkpoint_name 1 := 1%nat; checkpoint_name 12 := 12%nat;
                   checkpoint_name 3 := 3%nat ]} ]}.

(** Constructors that accept every argument and name what they built. *)
Definition permissive_torch : torch_optim :=
  {| AdamW := λ _, inr (Optimizer "AdamW");
     SGD := λ _, inr (Optimizer "SGD");
     StepLR := λ _ _, inr (LRScheduler "StepLR");
     ReduceLROnPlateau := λ _ _, inr (LRScheduler "ReduceLROnPlateau");
     MultiStepLR := λ _, inr (LRScheduler "MultiStepLR") |}.

Definition StepLR_hparams : hparams :=
  {| hp_optimizer := {[ "opt" := HStr "Adam"; "lr" := HNum (1 # 1000) ]};
     hp_lr_scheduler := {[ "lrs" := HStr "StepLR"; "step_size" := HNum (10 # 1) ]};
     hp_optimizer_name := None |}.

(** What [fit] relies on from one epoch to the next when the module
    configures a single optimizer: every batch steps, nothing asks to stop,
    there is no step limit, and the validation frequency can be divided by. *)
Definition plain_run (w : world) : Prop :=
  grad_accum_steps (self w) = 1 ∧ should_stop (self w) = false ∧
  max_steps (self w) = None ∧ validation_frequency (self w) ≠ 0.

(** Whether the epoch limit is met at epoch [e]. *)
Definition epochs_done (max_epochs : option Z) (e : Z) : bool :=
  match max_epochs with
  | Some m => bool_decide (m ≤ e)
  | None => false
  end.

(** What one epoch of [fit] does to the world. *)
Definition epoch_done (n_batches : nat) (l : loc) (w w' : world) : Prop :=
  grad_accum_steps (self w') = 1 ∧ max_steps (self w') = None ∧
  validation_frequency (self w') = validation_frequency (self w) ∧
  max_epochs (self w') = max_epochs (self w) ∧
  checkpoint_dir (self w') = checkpoint_dir (self w) ∧
  current_epoch (self w') = current_epoch (self w) + 1 ∧
  global_step (self w') = global_step (self w) + Z.of_nat n_batches ∧
  should_stop (self w') = epochs_done (max_epochs (self w)) (current_epoch (self w) + 1) ∧
  (∃ d', heap w' !! l = Some d' ∧
         read_file (fs w') (checkpoint_path (self w')) = Some d' ∧
         d' !! "current_epoch" = Some (PyInt (current_epoch (self w'))) ∧
         d' !! "global_step" = Some (PyInt (global_step (self w')))) ∧
  count is_fabric_save (trace w') = S (count is_fabric_save (trace w)) ∧
  count is_optimizer_step (trace w') = (count is_optimizer_step (trace w) + n_batches)%nat ∧
  count is_fabric_load (trace w') = count is_fabric_load (trace w).

(** The state mapping [fit] assembles. *)
Definition fit_state (optimizer scheduler_cfg : pyobj) : gmap string pyobj :=
  {[ "model" := PyModel "model"; "optim" := optimizer; "scheduler" := scheduler_cfg ]}.

(** An output that is a mapping, as a dictionary is: no key twice. *)
Definition mapping_output (out : output) : Prop :=
  ∃ items, out = OMapping items ∧ NoDup items.*1.

(** A module with a scheduler configured by name only. *)
Definition scheduled_module : lightning_module :=
  {| configure_optimizers :=
       PySeq [PyOptimizer (Optimizer "adam");
              PyMapping {[ "scheduler" := CScheduler (LRScheduler "plateau") ]}];
     model_training_step := λ _ _, OMapping [("loss", Tensor (1 # 2))];
     model_validation_step := Some (λ _ _, OMapping [("loss", Tensor (1 # 4))]) |}.

(** * Properties *)

(** ** Running the monad *)

Lemma bind_Ret {A B} (m : M A) (f : A → M B) (w w' : world) (a : A) :
  m w = (Ret a, w') → (m ≫= f) w = f a w'.
Proof. intros H. unfold mbind, M_bind. by rewrite H. Qed.

Lemma bind_Raise {A B} (m : M A) (f : A → M B) (w w' : world) (e : exn) :
  m w = (Raise e, w') → (m ≫= f) w = (Raise e, w').
Proof. intros H. unfold mbind, M_bind. by rewrite H. Qed.

(** ** The checkpoint manager *)

Lemma read_write_file files path r :
  read_file (write_file files path r) path = Some r.
Proof.
  unfold read_file, write_file. rewrite lookup_insert_eq. cbn.
  by rewrite lookup_insert_eq.
Qed.

(** [save] on an allocated mapping always succeeds; this is the state it
    leaves. *)
Lemma save_run (w : world) (l : loc) (d : gmap string pyobj) :
  heap w !! l = Some d →
  save (Some l) w =
    (Ret (),
     {| self := self w;
        heap := <[l := saved_record (self w) d]> (heap w);
        grad_enabled := grad_enabled w;
        fs := write_file (fs w) (checkpoint_path (self w)) (saved_record (self w) d);
        trace := trace w ++ [fabric_save_ev (checkpoint_path (self w))] |}).
Proof.
  intros Hl. unfold save, fabric_save, write_file, checkpoint_path, saved_record.
  run_M. rewrite Hl. cbn. rewrite lookup_insert_eq. cbn.
  destruct (os_path_split _) as [dir name]. by run_M.
Qed.

(** C10. For every state mapping passed to [save], the mapping the caller
    holds is updated in place: after [save] returns, the caller's reference
    shows ["global_step"] and ["current_epoch"] bound to the trainer's
    counters, every other entry of the mapping is as before, and no other
    mapping changed. *)
Theorem C10_save_mutates_state_in_place (w : world) (l : loc) (d : gmap string pyobj) :
  heap w !! l = Some d →
  ∃ d', (save (Some l) w).1 = Ret () ∧
        heap (save (Some l) w).2 !! l = Some d' ∧
        d' !! "global_step" = Some (PyInt (global_step (self w))) ∧
        d' !! "current_epoch" = Some (PyInt (current_epoch (self w))) ∧
        (∀ k, k ≠ "global_step" → k ≠ "current_epoch" → d' !! k = d !! k) ∧
        (∀ l', l' ≠ l → heap (save (Some l) w).2 !! l' = heap w !! l').
Proof.
  intros Hl. exists (saved_record (self w) d).
  rewrite (save_run w l d Hl). cbn. unfold saved_record.
  split_and!.
  - done.
  - by rewrite lookup_insert_eq.
  - by rewrite lookup_insert_ne, lookup_insert_eq.
  - by rewrite lookup_insert_eq.
  - intros k Hg He. by rewrite !lookup_insert_ne.
  - intros l' Hne. by rewrite lookup_insert_ne.
Qed.

Lemma C10_save_mutates_state_in_place_witness :
  ∃ d', (save (Some 0%nat) C10_world).1 = Ret () ∧
        heap (save (Some 0%nat) C10_world).2 !! 0%nat = Some d' ∧
        d' !! "global_step" = Some (PyInt 15) ∧
        d' !! "current_epoch" = Some (PyInt 3) ∧
        (∀ k, k ≠ "global_step" → k ≠ "current_epoch" →
              d' !! k = ({[ "model" := PyModel "net" ]} : gmap string pyobj) !! k) ∧
        (∀ l', l' ≠ 0%nat → heap (save (Some 0%nat) C10_world).2 !! l' = heap C10_world !! l').
Proof.
  apply (C10_save_mutates_state_in_place C10_world 0%nat {[ "model" := PyModel "net" ]}).
  reflexivity.
Defined.

(** [load] on a record that names every component of the state mapping and
    holds both counters as integers: the counters are taken over, and the
    call completes exactly when nothing else is left. *)
Lemma load_run (w : world) (l : loc) (d checkpoint : gmap string pyobj)
    (path : string) (g e : Z) :
  heap w !! l = Some d →
  read_file (fs w) path = Some checkpoint →
  dom d ⊆ dom checkpoint →
  "global_step" ∉ dom d → "current_epoch" ∉ dom d →
  checkpoint !! "global_step" = Some (PyInt g) →
  checkpoint !! "current_epoch" = Some (PyInt e) →
  load (Some l) path w =
    (if bool_decide (leftover checkpoint d = ∅) then Ret ()
     else Raise (RuntimeError_unused_values (leftover checkpoint d)),
     {| self := with_current_epoch e (with_global_step g (self w));
        heap := <[l := filter (λ kv, kv.1 ∈ dom d) checkpoint]> (heap w);
        grad_enabled := grad_enabled w;
        fs := fs w;
        trace := trace w ++ [fabric_load_ev path] |}).
Proof.
  intros Hl Hfile Hsub Hg He Hcg Hce.
  unfold read_file in Hfile.
  unfold load, fabric_load, leftover. run_M.
  destruct (os_path_split path) as [dir name]. cbn in Hfile.
  unfold mbind in Hfile. rewrite Hfile. cbn. rewrite Hl. cbn.
  assert (elements (dom d ∖ dom checkpoint) = []) as ->.
  { apply elements_empty_iff. set_solver. }
  run_M. unfold pop_counter.
  assert ((checkpoint ∖ d) !! "global_step" = Some (PyInt g)) as ->.
  { apply lookup_difference_Some. split; [done|]. by apply not_elem_of_dom. }
  run_M.
  assert (delete "global_step" (checkpoint ∖ d) !! "current_epoch" = Some (PyInt e)) as ->.
  { rewrite lookup_delete_ne by done. apply lookup_difference_Some.
    split; [done|]. by apply not_elem_of_dom. }
  run_M. by case_bool_decide.
Qed.

(** After the round trip nothing is left over. *)
Lemma leftover_saved_record (t : trainer) (d d2 : gmap string pyobj) :
  dom d2 = dom d → leftover (saved_record t d) d2 = ∅.
Proof.
  intros Hdom. apply map_empty. intros k. unfold leftover, saved_record.
  destruct (decide (k = "current_epoch")) as [->|Hce]; [by rewrite lookup_delete_eq|].
  rewrite lookup_delete_ne by done.
  destruct (decide (k = "global_step")) as [->|Hgs]; [by rewrite lookup_delete_eq|].
  rewrite lookup_delete_ne by done.
  apply lookup_difference_None.
  rewrite !lookup_insert_ne by done.
  destruct (d !! k) eqn:Hk; [right|by left].
  apply elem_of_dom. rewrite Hdom. apply elem_of_dom. eauto.
Qed.









(** The round trip on a concrete run: a trainer at epoch 3, step 15 saves,
    and a fresh trainer loading the file ends at epoch 3, step 15. *)
Example round_trip_fresh_trainer :
  let saved := (save (Some 0%nat) C7_world).2 in
  let fresh := {| self := init_trainer; heap := {[ 0%nat := C7_state ]};
                  grad_enabled := true; fs := fs saved; trace := [] |} in
  let loaded := load (Some 0%nat) "logs/checkpoints/epoch-0003.ckpt" fresh in
  checkpoint_path (self C7_world) = "logs/checkpoints/epoch-0003.ckpt" ∧
  loaded.1 = Ret () ∧
  current_epoch (self loaded.2) = 3 ∧ global_step (self loaded.2) = 15.
Proof. vm_compute. done. Qed.

(** ** Finding the latest checkpoint *)

(** The last item of a sorted list is above every item. *)
Lemma last_sorted_max (items : list string) (m : string) :
  last (sorted items) = Some m →
  m ∈ items ∧ ∀ n, n ∈ items → String.le n m.
Proof.
  intros Hlast. unfold sorted in *.
  pose proof (StronglySorted_merge_sort String.le items) as Hsorted.
  pose proof (merge_sort_Permutation String.le items) as Hperm.
  apply last_Some in Hlast as [front Hfront]. rewrite Hfront in Hsorted, Hperm.
  split.
  - rewrite <- Hperm. set_solver.
  - intros n Hn. rewrite <- Hperm in Hn.
    apply elem_of_app in Hn as [Hn|Hn].
    + eapply StronglySorted_app_1_elem_of; [exact Hsorted|exact Hn|set_solver].
    + apply list_elem_of_singleton in Hn as ->. reflexivity.
Qed.

Lemma sorted_nil_inv (items : list string) : sorted items = [] → items = [].
Proof.
  intros H. apply Permutation_nil_r. rewrite <- H.
  unfold sorted. symmetry. apply merge_sort_Permutation.
Qed.

(** C8, as stated, fails: for the directory [ckpts] holding
    [epoch-0001.ckpt], [epoch-0010.ckpt] and [epoch-0002.ckpt] the result is
    not the file name [epoch-0010.ckpt]. *)
Lemma C8_latest_is_not_the_bare_filename :
  os_listdir C8_files "ckpts" ≡ₚ ["epoch-0001.ckpt"; "epoch-0010.ckpt"; "epoch-0002.ckpt"] ∧
  get_latest_checkpoint C8_files "ckpts" ≠ Some "epoch-0010.ckpt".
Proof.
  split.
  - vm_compute. apply perm_swap.
  - vm_compute. discriminate.
Qed.

(** C8, amended. [get_latest_checkpoint dir] is [None] when the directory is
    absent or empty; otherwise it is the directory joined with the entry
    that is lexicographically last; for the directory [ckpts] above it is
    [ckpts/epoch-0010.ckpt]. *)
Theorem C8_get_latest_checkpoint {record} (files : filesystem record) (dir : string) :
  (os_path_isdir files dir = false → get_latest_checkpoint files dir = None) ∧
  (os_listdir files dir = [] → get_latest_checkpoint files dir = None) ∧
  (os_path_isdir files dir = true → os_listdir files dir ≠ [] →
   ∃ m, m ∈ os_listdir files dir ∧
        (∀ n, n ∈ os_listdir files dir → String.le n m) ∧
        get_latest_checkpoint files dir = Some (os_path_join dir m)) ∧
  get_latest_checkpoint C8_files "ckpts" = Some "ckpts/epoch-0010.ckpt".
Proof.
  unfold get_latest_checkpoint. split_and!.
  - by intros ->.
  - intros ->. by destruct (os_path_isdir files dir).
  - intros -> Hne. cbn.
    destruct (last (sorted (os_listdir files dir))) as [m|] eqn:Hlast.
    + exists m. destruct (last_sorted_max _ _ Hlast). done.
    + apply last_None, sorted_nil_inv in Hlast. done.
  - by vm_compute.
Qed.

Lemma C8_get_latest_checkpoint_witness :
  get_latest_checkpoint C8_files "missing" = None ∧
  get_latest_checkpoint C8_files "empty" = None ∧
  (∃ m, m ∈ os_listdir C8_files "ckpts" ∧
        (∀ n, n ∈ os_listdir C8_files "ckpts" → String.le n m) ∧
        get_latest_checkpoint C8_files "ckpts" = Some (os_path_join "ckpts" m)).
Proof.
  split_and!.
  - apply (C8_get_latest_checkpoint C8_files "missing"). reflexivity.
  - apply (C8_get_latest_checkpoint C8_files "empty"). reflexivity.
  - apply (C8_get_latest_checkpoint C8_files "ckpts"); [reflexivity|].
    vm_compute. discriminate.
Defined.

(** ** The optimizer/scheduler normalizer *)

(** The sibling branch: a mapping is merged over the defaults and returned. *)
Lemma parse_mapping (m : gmap string cfgval) :
  _parse_optimizers_schedulers (PyMapping m) =
    Ret (PyNone, PyMapping (m ∪ _lr_sched_defaults)).
Proof. reflexivity. Qed.

Lemma parse_single_optimizer (o : optimizer) :
  _parse_optimizers_schedulers (PyOptimizer o) = Ret (PyOptimizer o, PyNone).
Proof. reflexivity. Qed.

(** C2 (the code departs from the claim). For a single scheduler object the
    normalizer returns [(None, None)]: the second component is the value of
    the [update] call, not the updated defaults, so it is not the
    configuration holding the scheduler that the claim describes. *)
Theorem C2_single_scheduler_yields_none (s : lr_scheduler) :
  _parse_optimizers_schedulers (PyScheduler s) = Ret (PyNone, PyNone) ∧
  _parse_optimizers_schedulers (PyScheduler s) ≠
    Ret (PyNone, PyMapping (<["scheduler" := CScheduler s]> _lr_sched_defaults)).
Proof. split; [reflexivity|]. cbn. discriminate. Qed.

(** A sequence of optimizers that does not have exactly one element is
    rejected. *)
Lemma parse_optimizer_sequence_rejected (items : list pyobj) :
  all is_Optimizable items = true → length items ≠ 1%nat →
  _parse_optimizers_schedulers (PySeq items) =
    Raise (NotImplementedError "BYOT only supports a single optimizer").
Proof.
  intros Hall Hlen. cbn. rewrite Hall.
  destruct items as [|x [|y rest]]; cbn in *; done.
Qed.

(** C5 (the code departs from the claim). For a sequence holding exactly one
    optimizer the normalizer does not return [(that optimizer, None)]: it
    subscripts the optimizer itself and raises [TypeError]. *)
Theorem C5_single_optimizer_in_sequence_raises (o : optimizer) :
  _parse_optimizers_schedulers (PySeq [PyOptimizer o]) =
    Raise (TypeError "object is not subscriptable") ∧
  _parse_optimizers_schedulers (PySeq [PyOptimizer o]) ≠ Ret (PyOptimizer o, PyNone).
Proof. split; [reflexivity|]. cbn. discriminate. Qed.

(** The shape [NEAT_TrainingModule.configure_optimizers] returns,
    [([optimizer], [scheduler])], reaches the same item access. *)
Example parse_training_module_shape :
  _parse_optimizers_schedulers
    (PySeq [PySeq [PyOptimizer (Optimizer "AdamW")];
            PySeq [PyScheduler (LRScheduler "MultiStepLR")]]) =
    Raise (TypeError "object is not subscriptable").
Proof. reflexivity. Qed.

(** ** The scheduler stepping policy *)

Lemma add_monitor_vals_items prefix ret items vals w :
  items_of ret = Some items →
  add_monitor_vals prefix ret vals w = (Ret (od_update vals (prefixed_items prefix items)), w).
Proof. destruct ret; intros [= <-]; reflexivity. Qed.

Lemma step_scheduler_absent model level v w :
  step_scheduler model PyNone level v w = (Ret (), w).
Proof. reflexivity. Qed.

Lemma step_scheduler_wrong_interval model (m : gmap string cfgval) i level v w :
  m !! "interval" = Some i → cfgval_ne_str i level = true →
  step_scheduler model (PyMapping m) level v w = (Ret (), w).
Proof.
  intros Hi Hne. unfold step_scheduler, cfg_getitem. run_M.
  rewrite Hi. run_M. by rewrite Hne.
Qed.


(** When the step is due and both outputs are mappings, the outcome is
    decided by the lookup of the monitor in the candidate mapping. *)
Lemma step_scheduler_due model (m : gmap string cfgval) level v f w train val mon :
  m !! "interval" = Some (CStr level) → m !! "frequency" = Some (CInt f) →
  f ≠ 0 → v `mod` f = 0 →
  items_of (_current_train_return (self w)) = Some train →
  items_of (_current_val_return (self w)) = Some val →
  m !! "monitor" = Some mon →
  step_scheduler model (PyMapping m) level v w =
    match monitor_lookup mon (candidate_vals train val) with
    | None =>
        (Raise (KeyError_invalid_monitor mon (od_keys (candidate_vals train val))), w)
    | Some x =>
        match m !! "scheduler" with
        | Some sch => emit (lr_scheduler_step_ev sch x) w
        | None => (Raise (KeyError "scheduler"), w)
        end
    end.
Proof.
  intros Hi Hf Hf0 Hmod Htrain Hval Hmon.
  unfold step_scheduler, cfg_getitem. run_M.
  rewrite Hi. run_M. rewrite bool_decide_eq_true_2 by done. cbn.
  rewrite Hf. run_M. rewrite (bool_decide_eq_false_2 (f = 0)) by done. cbn.
  rewrite bool_decide_eq_true_2 by done. cbn.
  rewrite (add_monitor_vals_items _ _ train) by done.
  rewrite (add_monitor_vals_items _ _ val) by done.
  rewrite Hmon. cbn. fold (candidate_vals train val).
  destruct (monitor_lookup mon (candidate_vals train val)); [|done].
  destruct (m !! "scheduler"); by run_M.
Qed.

(** When the step is due and the last training output is a bare tensor, the
    call fails while it assembles the candidate mapping. *)
Lemma step_scheduler_bare_tensor model (m : gmap string cfgval) level v f w t :
  m !! "interval" = Some (CStr level) → m !! "frequency" = Some (CInt f) →
  f ≠ 0 → v `mod` f = 0 →
  _current_train_return (self w) = OTensor t →
  step_scheduler model (PyMapping m) level v w =
    (Raise (TypeError "update expected at most 1 argument, got 2"), w).
Proof.
  intros Hi Hf Hf0 Hmod Htrain.
  unfold step_scheduler, cfg_getitem. run_M.
  rewrite Hi. run_M. rewrite bool_decide_eq_true_2 by done. cbn.
  rewrite Hf. run_M. rewrite (bool_decide_eq_false_2 (f = 0)) by done. cbn.
  rewrite bool_decide_eq_true_2 by done. cbn.
  rewrite Htrain. by run_M.
Qed.

(** The part of C3 the code delivers: with training output
    [{"loss": 0.5}] and no validation run, [monitor="train_loss"] resolves
    to [0.5], and [monitor="val_loss"] raises the error, which lists the
    keys [None] and ["train_loss"]. *)
Example monitor_resolution_mapping :
  let w := world_with_returns (OMapping [("loss", Tensor (1 # 2))]) (OMapping []) in
  let s := LRScheduler "plateau" in
  step_scheduler no_module (PyMapping (cfg_with s "epoch" 1 (CStr "train_loss"))) "epoch" 0 w =
    emit (lr_scheduler_step_ev (CScheduler s) (Some (Tensor (1 # 2)))) w ∧
  step_scheduler no_module (PyMapping (cfg_with s "epoch" 1 (CStr "val_loss"))) "epoch" 0 w =
    (Raise (KeyError_invalid_monitor (CStr "val_loss") [None; Some "train_loss"]), w).
Proof. split; reflexivity. Qed.

(** C3 (the code departs from the claim). When the last training output is
    a bare scalar the candidate mapping is never built: instead of
    resolving [monitor="train_loss"] to the scalar, the call raises
    [TypeError] and the scheduler is not stepped. *)
Theorem C3_bare_scalar_output_raises :
  let w := world_with_returns (OTensor (Tensor (1 # 2))) (OMapping []) in
  let s := LRScheduler "plateau" in
  step_scheduler no_module (PyMapping (cfg_with s "epoch" 1 (CStr "train_loss"))) "epoch" 0 w =
    (Raise (TypeError "update expected at most 1 argument, got 2"), w) ∧
  step_scheduler no_module (PyMapping (cfg_with s "epoch" 1 (CStr "train_loss"))) "epoch" 0 w ≠
    emit (lr_scheduler_step_ev (CScheduler s) (Some (Tensor (1 # 2)))) w.
Proof. split; [reflexivity|]. vm_compute. discriminate. Qed.




(** ** The validation loop driver *)

(** With the stop flag set, or the batch limit already reached, the loop
    leaves at its first batch through the [return]. *)
Lemma val_batches_early_return validation_step b rest batch_idx limit_batches w :
  should_stop (self w) || ge_limit batch_idx limit_batches = true →
  val_batches validation_step (b :: rest) batch_idx limit_batches w =
    (Ret true, (emit (fabric_call_ev "on_validation_epoch_end") w).2).
Proof. intros H. cbn. run_M. by rewrite H. Qed.

(** C4 (the code departs from the claim). When the validation loop returns
    early, because the stop flag is set or because the batch limit is
    reached, it returns normally with gradient tracking still disabled,
    whatever its state was before the call. *)
Theorem C4_early_return_leaves_grad_disabled (model : lightning_module)
    (validation_step : batch → Z → output) (b : batch) (rest : list batch)
    (limit_batches : option Z) (w : world) :
  model_validation_step model = Some validation_step →
  should_stop (self w) = true ∨ ge_limit 0 limit_batches = true →
  (val_loop model (Some (b :: rest)) limit_batches w).1 = Ret () ∧
  grad_enabled (val_loop model (Some (b :: rest)) limit_batches w).2 = false.
Proof.
  intros Hstep Hexit. unfold val_loop. rewrite Hstep.
  repeat (erewrite bind_Ret; [|reflexivity]).
  erewrite bind_Ret.
  2:{ apply val_batches_early_return. cbn.
      destruct Hexit as [->| ->]; [done|]. by rewrite orb_true_r. }
  by run_M.
Qed.

Lemma C4_early_return_leaves_grad_disabled_witness :
  let w := fresh_world (with_should_stop true init_trainer) in
  grad_enabled w = true ∧
  (val_loop validating_module (Some [Batch 0]) None w).1 = Ret () ∧
  grad_enabled (val_loop validating_module (Some [Batch 0]) None w).2 = false.
Proof.
  intros w. split; [reflexivity|].
  apply (C4_early_return_leaves_grad_disabled validating_module
           (λ _ _, OMapping [("loss", Tensor (1 # 4))]) (Batch 0) [] None w).
  - reflexivity.
  - left. reflexivity.
Defined.

(** The batch-limit exit, and the exit at the end of the data for
    comparison, on concrete runs. *)
Example val_loop_exits :
  let w := fresh_world init_trainer in
  grad_enabled (val_loop validating_module (Some [Batch 0; Batch 1]) (Some 1) w).2 = false ∧
  grad_enabled (val_loop validating_module (Some [Batch 0; Batch 1]) None w).2 = true.
Proof. split; reflexivity. Qed.

(** ** The training loop driver *)

(** With [grad_accum_steps = 1] every batch steps the optimizer. *)
Example train_loop_no_accumulation :
  let r := train_loop validating_module [Batch 0; Batch 1; Batch 2; Batch 3] None PyNone
             (fresh_world (trainer_with 1 None CHECKPOINT_PATH)) in
  r.1 = Ret () ∧ count is_optimizer_step (trace r.2) = 4%nat ∧ global_step (self r.2) = 4.
Proof. vm_compute. done. Qed.

Lemma count_snoc p tr e : count p (tr ++ [e]) = (count p tr + if p e then 1 else 0)%nat.
Proof. unfold count. rewrite List.filter_app, length_app. cbn. by destruct (p e). Qed.

Lemma training_step_frame model b idx w :
  accum_frame w (training_step model b idx w).2.
Proof.
  unfold accum_frame, training_step, fabric_backward. run_M.
  destruct (model_training_step model b idx) as [t|items|]; cbn.
  - destruct (grad_enabled w); cbn; rewrite !count_snoc; cbn; split_and!; done || lia.
  - destruct (od_get "loss" items); cbn; [destruct (grad_enabled w); cbn|];
      rewrite !count_snoc; cbn; split_and!; done || lia.
  - rewrite !count_snoc. cbn. split_and!; [done..|lia].
Qed.

Arguments training_step : simpl never.

Lemma accum_frame_trans w1 w2 w3 :
  accum_frame w1 w2 → accum_frame w2 w3 → accum_frame w1 w3.
Proof. unfold accum_frame. intros (-> & -> & ->) (-> & -> & ->). done. Qed.

(** Once [global_step] is not a multiple of the accumulation factor it is
    stuck: no batch of the epoch steps the optimizer or moves the counter,
    however many batches follow. *)
Lemma train_batches_stuck model iterable :
  ∀ batch_idx limit_batches scheduler_cfg w,
    grad_accum_steps (self w) ≠ 0 →
    global_step (self w) `mod` grad_accum_steps (self w) ≠ 0 →
    accum_frame w (train_batches model iterable batch_idx limit_batches scheduler_cfg w).2.
Proof.
  induction iterable as [|b rest IH]; intros batch_idx limit_batches scheduler_cfg w HA Hmod.
  - cbn. done.
  - cbn [train_batches]. run_M.
    rewrite (bool_decide_eq_false_2 (grad_accum_steps (self w) = 0)) by done. cbn.
    rewrite bool_decide_eq_false_2 by done. cbn.
    match goal with
    | |- context [training_step model b batch_idx ?w1] =>
        pose proof (training_step_frame model b batch_idx w1) as Hts;
        destruct (training_step model b batch_idx w1) as [[t|e] w2]
    end; unfold accum_frame in Hts; cbn in Hts; destruct Hts as (Hg & Ha & Hc); rewrite count_snoc in Hc; cbn in Hc.
    + cbn.
      match goal with
      | |- context [if ?c then _ else _] => destruct c
      end.
      * cbn. unfold accum_frame. cbn. rewrite count_snoc. cbn. split_and!; lia.
      * eapply accum_frame_trans; [|apply IH].
        -- unfold accum_frame. cbn. rewrite count_snoc. cbn. split_and!; lia.
        -- cbn. by rewrite Ha.
        -- cbn. rewrite Ha, Z.add_0_r, Hg. done.
    + cbn. unfold accum_frame. split_and!; lia.
Qed.

Lemma count_app p tr1 tr2 : count p (tr1 ++ tr2) = (count p tr1 + count p tr2)%nat.
Proof. unfold count. by rewrite List.filter_app, length_app. Qed.

(** A training step on an output that holds a loss, with gradient tracking
    on. *)
Lemma training_step_run model b idx w t :
  grad_enabled w = true →
  loss_of (model_training_step model b idx) = Some t →
  training_step model b idx w =
    (Ret t,
     {| self := with_current_train_return (model_training_step model b idx) (self w);
        heap := heap w; grad_enabled := true; fs := fs w;
        trace := trace w ++ [training_step_ev idx; fabric_call_ev "on_before_backward";
                             backward_ev; fabric_call_ev "on_after_backward"] |}).
Proof.
  intros Hgrad Hloss. unfold training_step, fabric_backward. run_M.
  destruct (model_training_step model b idx) as [t'|items|]; cbn in Hloss.
  - injection Hloss as ->. cbn. rewrite Hgrad. cbn. by rewrite <- !app_assoc.
  - rewrite Hloss. cbn. rewrite Hgrad. cbn. by rewrite <- !app_assoc.
  - done.
Qed.

(** The same step as the closure of an optimizer step: it runs whatever
    the gradient switch is, and leaves the switch as it was. *)
Lemma optimizer_step_run model b idx w t :
  loss_of (model_training_step model b idx) = Some t →
  optimizer_step (training_step model b idx) w =
    (Ret (),
     {| self := with_current_train_return (model_training_step model b idx) (self w);
        heap := heap w; grad_enabled := grad_enabled w; fs := fs w;
        trace := trace w ++ [training_step_ev idx; fabric_call_ev "on_before_backward";
                             backward_ev; fabric_call_ev "on_after_backward";
                             optimizer_step_ev] |}).
Proof.
  intros Hloss. unfold optimizer_step, torch_enable_grad.
  unfold mbind at 1, M_bind at 1. cbn [torch_set_grad_enabled snd].
  rewrite (training_step_run _ _ _ _ t) by done.
  run_M. by rewrite <- !app_assoc.
Qed.

Local Arguments optimizer_step : simpl never.

(** The part of C1 the code delivers: with accumulation factor [1], no
    stop request, no step limit and no scheduler, every batch steps the
    optimizer, so [N] batches give [N = N / 1] steps. *)
Lemma train_batches_accum_one model iterable :
  (∀ b i, is_Some (loss_of (model_training_step model b i))) →
  ∀ batch_idx w,
    grad_accum_steps (self w) = 1 → should_stop (self w) = false →
    max_steps (self w) = None →
    let r := train_batches model iterable batch_idx None PyNone w in
    r.1 = Ret () ∧
    global_step (self r.2) = global_step (self w) + Z.of_nat (length iterable) ∧
    count is_optimizer_step (trace r.2) =
      (count is_optimizer_step (trace w) + length iterable)%nat.
Proof.
  intros Hgood. induction iterable as [|b rest IH]; intros batch_idx w HA Hstop Hmax.
  - cbn. split_and!; [done|lia|lia].
  - cbn [train_batches]. run_M. rewrite HA.
    rewrite (bool_decide_eq_false_2 (1 = 0)) by done. cbn.
    rewrite Z.mod_1_r. rewrite !(bool_decide_eq_true_2 (0 = 0)) by done. cbn.
    destruct (Hgood b batch_idx) as [t Ht].
    rewrite (optimizer_step_run _ _ _ _ t Ht). cbn.
    rewrite Hstop, Hmax. cbn.
    match goal with
    | |- context [train_batches model rest _ None PyNone ?w1] =>
        destruct (IH (batch_idx + 1) w1) as (Hr & Hg & Hc); [done..|]
    end.
    cbn in Hg, Hc. rewrite Hr, Hg, Hc.
    rewrite !count_snoc, count_app. cbn. rewrite !count_snoc. cbn.
    split_and!; [done|lia|].
    unfold count at 2. cbn. lia.
Qed.

(** C1 (the code departs from the claim). With accumulation factor [2] and
    [4] batches, starting from [global_step = 0], the epoch runs all four
    training steps but performs one optimizer step, not [4 / 2 = 2], and
    [global_step] ends at [1]. *)
Theorem C1_accumulation_steps_once :
  let r := train_loop validating_module [Batch 0; Batch 1; Batch 2; Batch 3] None PyNone
             (fresh_world (trainer_with 2 None CHECKPOINT_PATH)) in
  r.1 = Ret () ∧
  count is_training_step (trace r.2) = 4%nat ∧
  count is_optimizer_step (trace r.2) = 1%nat ∧
  global_step (self r.2) = 1 ∧
  4 `div` 2 = 2.
Proof. vm_compute. done. Qed.

(** ** Resuming in [fit] *)

(** When the directory passed to [fit] is the trainer's own checkpoint
    directory, the latest checkpoint is loaded and, its epoch having reached
    [max_epochs], no training step runs. *)
Example fit_resumes_from_own_directory :
  let r := fit 3 validating_module [Batch 0; Batch 1] None (Some "resume")
             (resume_world (trainer_with 1 (Some 1) "resume")) in
  r.1 = Ret true ∧
  count is_fabric_load (trace r.2) = 1%nat ∧
  count is_training_step (trace r.2) = 0%nat ∧
  current_epoch (self r.2) = 1 ∧ global_step (self r.2) = 7.
Proof. vm_compute. done. Qed.

(** C9 (the code departs from the claim). The directory [resume] is
    supplied to [fit] and holds the checkpoint [epoch-0001.ckpt], whose
    epoch meets [max_epochs = 1]; the trainer was built with the default
    checkpoint directory, which does not exist.  Nothing is loaded, and a
    training epoch is run from epoch [0]. *)
Theorem C9_fit_ignores_supplied_directory :
  let t := trainer_with 1 (Some 1) CHECKPOINT_PATH in
  let r := fit 3 validating_module [Batch 0; Batch 1] None (Some "resume")
             (resume_world t) in
  os_path_isdir resume_files "resume" = true ∧
  get_latest_checkpoint resume_files "resume" = Some "resume/epoch-0001.ckpt" ∧
  r.1 = Ret true ∧
  count is_fabric_load (trace r.2) = 0%nat ∧
  count is_training_step (trace r.2) = 2%nat ∧
  current_epoch (self r.2) = 1 ∧ global_step (self r.2) = 2.
Proof. vm_compute. done. Qed.

(** The end-to-end run of the specification: [max_epochs = 3],
    [validation_frequency = 1], five batches, accumulation factor [1].  After
    [fit] the trainer is at epoch [3], step [15], and three checkpoint files
    exist. *)
Example fit_end_to_end :
  let batches := [Batch 0; Batch 1; Batch 2; Batch 3; Batch 4] in
  let r := fit 5 validating_module batches (Some batches) None
             (fresh_world (trainer_with 1 (Some 3) "ckpts")) in
  r.1 = Ret true ∧
  current_epoch (self r.2) = 3 ∧ global_step (self r.2) = 15 ∧
  should_stop (self r.2) = false ∧
  sorted (os_listdir (fs r.2) "ckpts") =
    ["epoch-0001.ckpt"; "epoch-0002.ckpt"; "epoch-0003.ckpt"].
Proof. vm_compute. done. Qed.

(** ** What the normalizer returns *)

Lemma defaults_present (m : gmap string cfgval) (k : string) :
  is_Some (_lr_sched_defaults !! k) → is_Some ((m ∪ _lr_sched_defaults) !! k).
Proof.
  intros [v Hv]. destruct (m !! k) as [u|] eqn:Hm.
  - exists u. by apply lookup_union_Some_l.
  - exists v. rewrite lookup_union_r; done.
Qed.

Lemma parse_result_shape_aux :
  ∀ x o c, _parse_optimizers_schedulers x = Ret (o, c) →
           optional_optimizer o ∧ optional_scheduler_cfg c.
Proof.
  fix IH 1. intros x o c.
  destruct x as [| z | name | opt | s | m | items]; cbn.
  - intros [= <- <-]. split; by left.
  - intros [= <- <-]. split; by left.
  - intros [= <- <-]. split; by left.
  - intros [= <- <-]. split; [by right|by left].
  - intros [= <- <-]. split; by left.
  - intros [= <- <-]. split; [by left|]. right. eexists. split; [done|].
    split_and!; by apply defaults_present.
  - destruct (all is_Optimizable items) eqn:Hopt.
    { destruct items as [|a [|b rest]]; [done| |done].
      destruct a; cbn in *; done. }
    destruct (all is_LRScheduler_or_Mapping items) eqn:Hsch.
    { destruct items as [|a [|b rest]].
      - intros [= <- <-]. split; by left.
      - destruct (_parse_optimizers_schedulers a) as [[o1 c1]|e] eqn:Ha; [|done].
        intros [= <- <-]. split; [by left|]. by destruct (IH a o1 c1 Ha).
      - intros [= <- <-]. split; by left. }
    destruct items as [|a [|b [|b' rest]]].
    + intros [= <- <-]. split; by left.
    + intros [= <- <-]. split; by left.
    + destruct (_parse_optimizers_schedulers a) as [[o1 c1]|e] eqn:Ha; [|done].
      destruct (_parse_optimizers_schedulers b) as [[o2 c2]|e] eqn:Hb; [|done].
      intros [= <- <-]. split.
      * by destruct (IH a o1 c1 Ha).
      * by destruct (IH b o2 c2 Hb).
    + intros [= <- <-]. split; by left.
Qed.

(** X1. Whatever [_parse_optimizers_schedulers] is given, when it returns
    a pair the first component is [None] or an optimizer, and the second is
    [None] or a mapping that holds the keys [interval], [frequency] and
    [monitor]. *)
Theorem parse_result_shape (x o c : pyobj) :
  _parse_optimizers_schedulers x = Ret (o, c) →
  optional_optimizer o ∧ optional_scheduler_cfg c.
Proof. apply parse_result_shape_aux. Qed.

Lemma parse_result_shape_witness :
  optional_optimizer (PyOptimizer (Optimizer "adam")) ∧
  optional_scheduler_cfg
    (PyMapping ({[ "scheduler" := CScheduler (LRScheduler "plateau") ]} ∪ _lr_sched_defaults)).
Proof.
  apply (parse_result_shape
           (PySeq [PyOptimizer (Optimizer "adam");
                   PyMapping {[ "scheduler" := CScheduler (LRScheduler "plateau") ]}])).
  reflexivity.
Defined.

(** X2. A scheduler configuration mapping is merged over the defaults:
    every key the caller gave keeps the caller's value, every other key has
    the default's, and normalizing the result once more changes nothing. *)
Theorem parse_mapping_merges_over_defaults (m : gmap string cfgval) :
  ∃ m', _parse_optimizers_schedulers (PyMapping m) = Ret (PyNone, PyMapping m') ∧
        (∀ k v, m !! k = Some v → m' !! k = Some v) ∧
        (∀ k, m !! k = None → m' !! k = _lr_sched_defaults !! k) ∧
        _parse_optimizers_schedulers (PyMapping m') = Ret (PyNone, PyMapping m').
Proof.
  exists (m ∪ _lr_sched_defaults). split_and!.
  - reflexivity.
  - intros k v Hk. by apply lookup_union_Some_l.
  - intros k Hk. by apply lookup_union_r.
  - cbn. do 3 f_equal. by rewrite <- (assoc_L (∪)), (idemp_L (∪)).
Qed.

(** X3. Sequences the normalizer has no case for.  The empty sequence
    raises [NotImplementedError]; two or more schedulers or mappings, and a
    mixed sequence whose length is not two, yield [(None, None)] without any
    error. *)
Theorem parse_sequence_edges (items : list pyobj) :
  _parse_optimizers_schedulers (PySeq []) =
    Raise (NotImplementedError "BYOT only supports a single optimizer") ∧
  (items ≠ [] → all is_LRScheduler_or_Mapping items = true → length items ≠ 1%nat →
   _parse_optimizers_schedulers (PySeq items) = Ret (PyNone, PyNone)) ∧
  (all is_Optimizable items = false → all is_LRScheduler_or_Mapping items = false →
   length items ≠ 2%nat →
   _parse_optimizers_schedulers (PySeq items) = Ret (PyNone, PyNone)).
Proof.
  split_and!.
  - reflexivity.
  - intros Hne Hsch Hlen. cbn.
    assert (all is_Optimizable items = false) as ->.
    { destruct items as [|a rest]; [done|]. cbn in *.
      destruct a; cbn in *; done. }
    rewrite Hsch. by destruct items as [|a [|b rest]].
  - intros Hopt Hsch Hlen. cbn. rewrite Hopt, Hsch.
    by destruct items as [|a [|b [|b' rest]]].
Qed.

(** X4. The pair shapes.  An optimizer followed by a configuration
    mapping, bare or in a one-element list, yields that optimizer and the
    mapping merged over the defaults; an optimizer followed by a bare
    scheduler yields the optimizer and no configuration; a mapping followed
    by an optimizer yields [(None, None)]. *)
Theorem parse_optimizer_with_scheduler (o : optimizer) (s : lr_scheduler)
    (m : gmap string cfgval) :
  _parse_optimizers_schedulers (PySeq [PyOptimizer o; PyMapping m]) =
    Ret (PyOptimizer o, PyMapping (m ∪ _lr_sched_defaults)) ∧
  _parse_optimizers_schedulers (PySeq [PyOptimizer o; PySeq [PyMapping m]]) =
    Ret (PyOptimizer o, PyMapping (m ∪ _lr_sched_defaults)) ∧
  _parse_optimizers_schedulers (PySeq [PyOptimizer o; PyScheduler s]) =
    Ret (PyOptimizer o, PyNone) ∧
  _parse_optimizers_schedulers (PySeq [PyMapping m; PyOptimizer o]) =
    Ret (PyNone, PyNone).
Proof. split_and!; reflexivity. Qed.

(** X5. [fit] starts nothing without an optimizer.  Under the FSDP
    strategy it raises [NotImplementedError]; otherwise an exception of the
    normalizer is passed on, and a normalized pair without optimizer raises
    [AssertionError].  In each case the trainer, the dictionaries, the files
    and the trace are as before the call. *)
Theorem fit_needs_an_optimizer (fuel : nat) (model : lightning_module)
    (train_loader : list batch) (val_loader : option (list batch))
    (ckpt_path : option string) (w : world) :
  (strategy_is_fsdp (self w) = true →
   fit fuel model train_loader val_loader ckpt_path w =
     (Raise (NotImplementedError "BYOT currently does not support FSDP"), w)) ∧
  (strategy_is_fsdp (self w) = false →
   (∀ e, _parse_optimizers_schedulers (configure_optimizers model) = Raise e →
         fit fuel model train_loader val_loader ckpt_path w = (Raise e, w)) ∧
   (∀ c, _parse_optimizers_schedulers (configure_optimizers model) = Ret (PyNone, c) →
         fit fuel model train_loader val_loader ckpt_path w = (Raise AssertionError, w))).
Proof.
  split.
  - intros Hfsdp. unfold fit. run_M. by rewrite Hfsdp.
  - intros Hfsdp. split.
    + intros e He. unfold fit. run_M. by rewrite Hfsdp, He.
    + intros c Hc. unfold fit. run_M. by rewrite Hfsdp, Hc.
Qed.

(** ** Resolving the monitor and stepping the scheduler *)

(** What [od_set] and [od_update] do with keys that are new. *)

Section ODictFacts.
Context {K V : Type} `{EqDecision K}.
Implicit Types (d other : list (K * V)) (k : K) (v : V).

Lemma od_set_fresh k v d : k ∉ d.*1 → od_set k v d = d ++ [(k, v)].
Proof.
  induction d as [|[k' v'] d IH]; intros Hk; cbn; [done|].
  cbn in Hk. apply not_elem_of_cons in Hk as [Hne Hk].
  destruct (decide (k = k')); [done|]. by rewrite IH.
Qed.

Lemma od_update_fresh d other :
  NoDup other.*1 → (∀ k, k ∈ other.*1 → k ∉ d.*1) → od_update d other = d ++ other.
Proof.
  unfold od_update. revert d.
  induction other as [|[k v] other IH]; intros d Hnd Hfresh; cbn.
  - by rewrite app_nil_r.
  - cbn in Hnd. apply NoDup_cons in Hnd as [Hk Hnd].
    rewrite od_set_fresh by (apply Hfresh; cbn; left).
    rewrite IH, <- app_assoc; [done|done|].
    intros k' Hk'. rewrite fmap_app. cbn. intros [Hin|Hin%list_elem_of_singleton]%elem_of_app.
    + eapply Hfresh; [|done]. cbn. by right.
    + by subst.
Qed.

Lemma od_get_app k (d1 d2 : list (K * V)) :
  od_get k (d1 ++ d2) = match od_get k d1 with Some v => Some v | None => od_get k d2 end.
Proof.
  induction d1 as [|[k' v'] d1 IH]; cbn; [done|]. by destruct (decide (k = k')).
Qed.
End ODictFacts.

Lemma prefixed_keys prefix items :
  (prefixed prefix <$> items).*1 = (λ k, Some (prefix +:+ k)) <$> items.*1.
Proof. induction items as [|[k v] items IH]; cbn; [done|]. by rewrite IH. Qed.

Lemma prefixed_items_closed prefix items :
  NoDup items.*1 → prefixed_items prefix items = prefixed prefix <$> items.
Proof.
  intros Hnd. unfold prefixed_items.
  change (foldl _ [] items) with
    (foldl (λ acc kv, od_set (prefixed prefix kv).1 (prefixed prefix kv).2 acc) [] items).
  rewrite <- (foldl_fmap (λ acc kv, od_set kv.1 kv.2 acc) [] items (prefixed prefix)).
  fold (od_update (K:=option string) (V:=option tensor) [] (prefixed prefix <$> items)).
  rewrite od_update_fresh; [done| |].
  - rewrite prefixed_keys. apply NoDup_fmap_2; [|done].
    intros k1 k2 [= Heq]. by apply (inj (String.app prefix)) in Heq.
  - intros k _. cbn. apply not_elem_of_nil.
Qed.

Lemma od_get_prefixed prefix k items :
  od_get (Some (prefix +:+ k)) (prefixed prefix <$> items) = Some <$> od_get k items.
Proof.
  induction items as [|[k' v'] items IH]; cbn; [done|].
  destruct (decide (k = k')) as [->|Hne].
  - by rewrite decide_True.
  - rewrite decide_False; [done|]. intros [= Heq]. by apply (inj (String.app prefix)) in Heq.
Qed.

Lemma od_get_None_prefixed prefix items :
  od_get None (prefixed prefix <$> items) = None.
Proof. induction items as [|[k' v'] items IH]; cbn; done. Qed.

Lemma od_get_train_in_val k items :
  od_get (Some ("train_" +:+ k)) (prefixed "val_" <$> items) = None.
Proof. induction items as [|[k' v'] items IH]; cbn; done. Qed.

Lemma od_get_val_in_train k items :
  od_get (Some ("val_" +:+ k)) (prefixed "train_" <$> items) = None.
Proof. induction items as [|[k' v'] items IH]; cbn; done. Qed.

(** The candidate mapping in closed form. *)
Lemma candidate_vals_closed train val :
  NoDup train.*1 → NoDup val.*1 →
  candidate_vals train val =
    (None, None) :: (prefixed "train_" <$> train) ++ (prefixed "val_" <$> val).
Proof.
  intros Ht Hv. unfold candidate_vals.
  rewrite !prefixed_items_closed by done.
  assert (Hnd : ∀ prefix items, NoDup items.*1 → NoDup (prefixed prefix <$> items).*1).
  { intros prefix items Hi. rewrite prefixed_keys. apply NoDup_fmap_2; [|done].
    intros k1 k2 [= Heq]. by apply (inj (String.app prefix)) in Heq. }
  rewrite (od_update_fresh [(None, None)] (prefixed "train_" <$> train)).
  - rewrite od_update_fresh; [done|by apply Hnd|].
    intros k Hk. rewrite prefixed_keys in Hk.
    apply list_elem_of_fmap in Hk as (s & -> & _).
    cbn. rewrite prefixed_keys.
    intros [Hin|Hin]%elem_of_cons; [done|].
    apply list_elem_of_fmap in Hin as (s' & [=] & _).
  - by apply Hnd.
  - intros k Hk. rewrite prefixed_keys in Hk.
    apply list_elem_of_fmap in Hk as (s & -> & _).
    cbn. by intros [=]%list_elem_of_singleton.
Qed.

(** What a monitor key resolves to. *)
Lemma monitor_lookup_closed train val :
  NoDup train.*1 → NoDup val.*1 →
  monitor_lookup CNone (candidate_vals train val) = Some None ∧
  (∀ k, monitor_lookup (CStr ("train_" +:+ k)) (candidate_vals train val) =
          Some <$> od_get k train) ∧
  (∀ k, monitor_lookup (CStr ("val_" +:+ k)) (candidate_vals train val) =
          Some <$> od_get k val).
Proof.
  intros Ht Hv. rewrite candidate_vals_closed by done. split_and!.
  - reflexivity.
  - intros k. cbn [monitor_lookup od_get]. rewrite decide_False by done.
    rewrite od_get_app, od_get_prefixed, od_get_train_in_val.
    by destruct (od_get k train).
  - intros k. cbn [monitor_lookup od_get]. rewrite decide_False by done.
    rewrite od_get_app, od_get_val_in_train, od_get_prefixed. done.
Qed.

(** X8. When a step is due and the last training and validation outputs
    are mappings: the monitor [None] steps the scheduler with no value; a
    monitor [train_<k>] resolves to the entry [k] of the training output and
    a monitor [val_<k>] to the entry [k] of the validation output; when that
    entry is missing the call raises the error that lists [None], the
    training keys and the validation keys, in this order. *)
Theorem step_scheduler_resolves_monitor (model : lightning_module)
    (m : gmap string cfgval) (level : string) (v f : Z) (sch : cfgval) (w : world)
    (train val : list (string * tensor)) :
  m !! "interval" = Some (CStr level) → m !! "frequency" = Some (CInt f) →
  f ≠ 0 → v `mod` f = 0 → m !! "scheduler" = Some sch →
  _current_train_return (self w) = OMapping train →
  _current_val_return (self w) = OMapping val →
  NoDup train.*1 → NoDup val.*1 →
  let keys := None :: ((λ kv, Some ("train_" +:+ kv.1)) <$> train)
                   ++ ((λ kv, Some ("val_" +:+ kv.1)) <$> val) in
  (m !! "monitor" = Some CNone →
   step_scheduler model (PyMapping m) level v w = emit (lr_scheduler_step_ev sch None) w) ∧
  (∀ k, m !! "monitor" = Some (CStr ("train_" +:+ k)) →
   step_scheduler model (PyMapping m) level v w =
     match od_get k train with
     | Some t => emit (lr_scheduler_step_ev sch (Some t)) w
     | None => (Raise (KeyError_invalid_monitor (CStr ("train_" +:+ k)) keys), w)
     end) ∧
  (∀ k, m !! "monitor" = Some (CStr ("val_" +:+ k)) →
   step_scheduler model (PyMapping m) level v w =
     match od_get k val with
     | Some t => emit (lr_scheduler_step_ev sch (Some t)) w
     | None => (Raise (KeyError_invalid_monitor (CStr ("val_" +:+ k)) keys), w)
     end).
Proof.
  intros Hi Hf Hf0 Hmod Hsch Htrain Hval Hndt Hndv keys.
  destruct (monitor_lookup_closed train val Hndt Hndv) as (Hnone & Ht & Hv).
  assert (Hkeys : od_keys (candidate_vals train val) = keys).
  { rewrite candidate_vals_closed by done. unfold od_keys, keys. cbn.
    rewrite fmap_app, <- !list_fmap_compose. done. }
  assert (Hdue : ∀ mon, m !! "monitor" = Some mon →
            step_scheduler model (PyMapping m) level v w =
              match monitor_lookup mon (candidate_vals train val) with
              | None => (Raise (KeyError_invalid_monitor mon keys), w)
              | Some x => emit (lr_scheduler_step_ev sch x) w
              end).
  { intros mon Hmon.
    rewrite (step_scheduler_due model m level v f w train val mon); try done.
    - rewrite Hsch, Hkeys. done.
    - by rewrite Htrain.
    - by rewrite Hval. }
  split_and!.
  - intros Hmon. by rewrite (Hdue _ Hmon), Hnone.
  - intros k Hmon. rewrite (Hdue _ Hmon), Ht. by destruct (od_get k train).
  - intros k Hmon. rewrite (Hdue _ Hmon), Hv. by destruct (od_get k val).
Qed.

Lemma step_scheduler_resolves_monitor_witness :
  let w := world_with_returns (OMapping [("loss", Tensor (1 # 2)); ("acc", Tensor (3 # 4))])
                              (OMapping [("loss", Tensor (1 # 4))]) in
  let s := LRScheduler "plateau" in
  let m := cfg_with s "epoch" 2 (CStr "val_loss") in
  let keys := [None; Some "train_loss"; Some "train_acc"; Some "val_loss"] in
  (m !! "monitor" = Some CNone →
   step_scheduler no_module (PyMapping m) "epoch" 4 w =
     emit (lr_scheduler_step_ev (CScheduler s) None) w) ∧
  (∀ k, m !! "monitor" = Some (CStr ("train_" +:+ k)) →
   step_scheduler no_module (PyMapping m) "epoch" 4 w =
     match od_get k [("loss", Tensor (1 # 2)); ("acc", Tensor (3 # 4))] with
     | Some t => emit (lr_scheduler_step_ev (CScheduler s) (Some t)) w
     | None => (Raise (KeyError_invalid_monitor (CStr ("train_" +:+ k)) keys), w)
     end) ∧
  (∀ k, m !! "monitor" = Some (CStr ("val_" +:+ k)) →
   step_scheduler no_module (PyMapping m) "epoch" 4 w =
     match od_get k [("loss", Tensor (1 # 4))] with
     | Some t => emit (lr_scheduler_step_ev (CScheduler s) (Some t)) w
     | None => (Raise (KeyError_invalid_monitor (CStr ("val_" +:+ k)) keys), w)
     end).
Proof.
  intros w s m keys.
  apply (step_scheduler_resolves_monitor no_module m "epoch" 4 2 (CScheduler s) w
           [("loss", Tensor (1 # 2)); ("acc", Tensor (3 # 4))] [("loss", Tensor (1 # 4))]);
    try reflexivity; try done.
  - apply (bool_decide_unpack _). vm_compute. reflexivity.
  - apply (bool_decide_unpack _). vm_compute. reflexivity.
Defined.

(** X6. [step_scheduler] touches nothing but the scheduler: the trainer's
    attributes, the dictionaries, the gradient switch and the files are
    unchanged; it makes at most one call, the scheduler step, and only when
    it returns; when it raises, nothing at all has changed. *)
Theorem step_scheduler_frame (model : lightning_module) (scheduler_cfg : pyobj)
    (level : string) (current_value : Z) (w : world) :
  let r := step_scheduler model scheduler_cfg level current_value w in
  self r.2 = self w ∧ heap r.2 = heap w ∧ grad_enabled r.2 = grad_enabled w ∧
  fs r.2 = fs w ∧
  (trace r.2 = trace w ∨
   ∃ sch x, r.1 = Ret () ∧ trace r.2 = trace w ++ [lr_scheduler_step_ev sch x]) ∧
  (∀ e, r.1 = Raise e → r.2 = w).
Proof.
  unfold step_scheduler, cfg_getitem, add_monitor_vals.
  destruct scheduler_cfg as [| z | name | opt | s | m | items]; run_M;
    try (split_and!; [done..|by left|done]).
  destruct (m !! "interval") as [i|]; run_M; [|split_and!; [done..|by left|done]].
  destruct (cfgval_ne_str i level); run_M; [split_and!; [done..|by left|done]|].
  destruct (m !! "frequency") as [[| s | f | s]|]; run_M;
    try (split_and!; [done..|by left|done]).
  destruct (bool_decide (f = 0)); run_M; [split_and!; [done..|by left|done]|].
  destruct (bool_decide (current_value `mod` f = 0)); run_M;
    [|split_and!; [done..|by left|done]].
  destruct (_current_train_return (self w)); run_M;
    try (split_and!; [done..|by left|done]);
  (destruct (_current_val_return (self w)); run_M;
    try (split_and!; [done..|by left|done]));
  (destruct (m !! "monitor") as [mon|]; run_M; [|split_and!; [done..|by left|done]]);
  (destruct (monitor_lookup mon _) as [x|]; run_M; [|split_and!; [done..|by left|done]]);
  (destruct (m !! "scheduler") as [sch|]; run_M; [|split_and!; [done..|by left|done]]);
  (split_and!; [done..|right; by eexists _, _|done]).
Qed.

(** X7. With the interval equal to the level, a frequency of [0] raises
    [ZeroDivisionError], a missing frequency raises [KeyError] and a
    frequency that is a string raises [TypeError]; the scheduler is not
    stepped. *)
Theorem step_scheduler_bad_frequency (model : lightning_module)
    (m : gmap string cfgval) (level : string) (v : Z) (w : world) :
  m !! "interval" = Some (CStr level) →
  (m !! "frequency" = Some (CInt 0) →
   step_scheduler model (PyMapping m) level v w = (Raise ZeroDivisionError, w)) ∧
  (m !! "frequency" = None →
   step_scheduler model (PyMapping m) level v w = (Raise (KeyError "frequency"), w)) ∧
  (∀ s, m !! "frequency" = Some (CStr s) →
   step_scheduler model (PyMapping m) level v w =
     (Raise (TypeError "unsupported operand type(s) for %"), w)).
Proof.
  intros Hi. unfold step_scheduler, cfg_getitem. run_M. rewrite Hi. run_M.
  rewrite bool_decide_eq_true_2 by done. cbn.
  split_and!.
  - intros ->. by run_M.
  - intros ->. by run_M.
  - intros s ->. by run_M.
Qed.

Lemma step_scheduler_bad_frequency_witness :
  let w := world_with_returns (OMapping []) (OMapping []) in
  let m := cfg_with (LRScheduler "plateau") "epoch" 0 CNone in
  (m !! "frequency" = Some (CInt 0) →
   step_scheduler no_module (PyMapping m) "epoch" 3 w = (Raise ZeroDivisionError, w)) ∧
  (m !! "frequency" = None →
   step_scheduler no_module (PyMapping m) "epoch" 3 w = (Raise (KeyError "frequency"), w)) ∧
  (∀ s, m !! "frequency" = Some (CStr s) →
   step_scheduler no_module (PyMapping m) "epoch" 3 w =
     (Raise (TypeError "unsupported operand type(s) for %"), w)).
Proof.
  intros w m.
  apply (step_scheduler_bad_frequency no_module m "epoch" 3 w). reflexivity.
Defined.

(** X9. [training_step] returns exactly when the module's output is a
    tensor or a mapping with the key [loss] and gradient tracking is on, and
    then the result is that loss, one backward pass was run and the output
    is stored as the last training output.  Without a loss it raises
    [KeyError] or [TypeError] right after the module's step; with a loss but
    gradient tracking off it raises [RuntimeError] at the backward call,
    after [on_before_backward].  In both cases nothing is stored and no
    backward pass runs. *)
Theorem training_step_needs_loss (model : lightning_module) (b : batch) (idx : Z)
    (w : world) :
  let outputs := model_training_step model b idx in
  let r := training_step model b idx w in
  (∀ t, r.1 = Ret t ↔ loss_of outputs = Some t ∧ grad_enabled w = true) ∧
  (is_Some (loss_of outputs) → grad_enabled w = true →
   _current_train_return (self r.2) = outputs ∧
   count is_backward (trace r.2) = S (count is_backward (trace w))) ∧
  (loss_of outputs = None →
   (r.1 = Raise (KeyError "loss") ∨ r.1 = Raise (TypeError "object is not subscriptable")) ∧
   self r.2 = self w ∧ trace r.2 = trace w ++ [training_step_ev idx]) ∧
  (is_Some (loss_of outputs) → grad_enabled w = false →
   r.1 = Raise RuntimeError_no_grad ∧
   self r.2 = self w ∧
   trace r.2 = trace w ++ [training_step_ev idx; fabric_call_ev "on_before_backward"]).
Proof.
  intros outputs r. subst outputs r. split_and!.
  - intros t. split.
    + unfold training_step, fabric_backward. run_M.
      destruct (model_training_step model b idx) as [t'|items|]; cbn.
      * destruct (grad_enabled w); cbn; [by intros [= ->]|done].
      * destruct (od_get "loss" items); cbn; [|done].
        destruct (grad_enabled w); cbn; [by intros [= ->]|done].
      * done.
    + intros [Ht Hgrad]. by rewrite (training_step_run _ _ _ _ t Hgrad Ht).
  - intros [t Ht] Hgrad. rewrite (training_step_run _ _ _ _ t Hgrad Ht). cbn. split; [done|].
    rewrite count_app. unfold count at 2. cbn. lia.
  - unfold training_step. run_M.
    destruct (model_training_step model b idx) as [t'|items|]; cbn; [done| |].
    + intros Hl. rewrite Hl. cbn. split_and!; [by left|done..].
    + intros _. split_and!; [by right|done..].
  - intros [t Ht] Hgrad. unfold training_step, fabric_backward. run_M.
    destruct (model_training_step model b idx) as [t'|items|]; cbn in Ht.
    + cbn. rewrite Hgrad. cbn. by rewrite <- app_assoc.
    + rewrite Ht. cbn. rewrite Hgrad. cbn. by rewrite <- app_assoc.
    + done.
Qed.

(** ** A validation epoch in full *)

Lemma with_current_val_return_same t :
  with_current_val_return (_current_val_return t) t = t.
Proof. by destruct t. Qed.

Lemma val_batches_run vs limit iterable :
  ∀ idx w, should_stop (self w) = false →
    let k := batches_within limit idx iterable in
    val_batches vs iterable idx limit w =
      (Ret (bool_decide (k < length iterable)%nat),
       {| self := with_current_val_return
                    (last_output vs (take k iterable) idx (_current_val_return (self w)))
                    (self w);
          heap := heap w; grad_enabled := grad_enabled w; fs := fs w;
          trace := trace w ++ validation_events k idx ++
                   (if bool_decide (k < length iterable)%nat
                    then [fabric_call_ev "on_validation_epoch_end"] else []) |}).
Proof.
  induction iterable as [|b rest IH]; intros idx w Hstop k; subst k.
  - assert (batches_within limit idx [] = 0%nat) as ->.
    { unfold batches_within. by destruct limit. }
    cbn. rewrite with_current_val_return_same, app_nil_r. by destruct w.
  - cbn [val_batches]. run_M. rewrite Hstop. cbn.
    destruct (ge_limit idx limit) eqn:Hlim.
    + assert (batches_within limit idx (b :: rest) = 0%nat) as ->.
      { unfold batches_within, ge_limit in *. destruct limit as [l|]; [|done].
        apply bool_decide_eq_true in Hlim. cbn [length]. lia. }
      cbn. by rewrite with_current_val_return_same.
    + cbn. rewrite IH by done. cbn.
      assert (batches_within limit idx (b :: rest) =
                S (batches_within limit (idx + 1) rest)) as ->.
      { unfold batches_within, ge_limit in *. destruct limit as [l|]; [|done].
        apply bool_decide_eq_false in Hlim. cbn [length].
        replace (Z.to_nat (l - idx)) with (S (Z.to_nat (l - (idx + 1)))) by lia.
        done. }
      cbn [length take last_output validation_events].
      assert (bool_decide (S (batches_within limit (idx + 1) rest) < S (length rest))%nat =
              bool_decide (batches_within limit (idx + 1) rest < length rest)%nat) as ->.
      { apply bool_decide_ext. lia. }
      rewrite <- !app_assoc. reflexivity.
Qed.

Lemma count_validation_events k idx :
  count is_validation_step (validation_events k idx) = k.
Proof.
  revert idx. induction k as [|k IH]; intros idx; [done|].
  cbn [validation_events]. rewrite count_app, IH. done.
Qed.

Lemma validation_events_only k idx :
  forallb is_validation_event (validation_events k idx) = true.
Proof. revert idx. induction k as [|k IH]; intros idx; cbn; [done|]. apply IH. Qed.

(** X10. A validation epoch that is not asked to stop goes through the
    batches that lie before the batch limit, all of them when there is no
    limit: that many validation steps run, the last validation output is
    the output of the last of them, and gradient tracking is on afterwards
    exactly when no batch was left out. *)
Theorem val_loop_runs_within_limit (model : lightning_module)
    (validation_step : batch → Z → output) (loader : list batch)
    (limit_batches : option Z) (w : world) :
  model_validation_step model = Some validation_step →
  should_stop (self w) = false →
  let k := batches_within limit_batches 0 loader in
  let r := val_loop model (Some loader) limit_batches w in
  r.1 = Ret () ∧
  count is_validation_step (trace r.2) = (count is_validation_step (trace w) + k)%nat ∧
  self r.2 = with_current_val_return
               (last_output validation_step (take k loader) 0 (_current_val_return (self w)))
               (self w) ∧
  grad_enabled r.2 = bool_decide (length loader ≤ k)%nat ∧
  heap r.2 = heap w ∧ fs r.2 = fs w.
Proof.
  intros Hstep Hstop k r. subst r. unfold val_loop. rewrite Hstep.
  repeat (erewrite bind_Ret; [|reflexivity]).
  erewrite bind_Ret; [|by apply val_batches_run].
  fold k. cbn [self heap grad_enabled fs trace snd].
  destruct (bool_decide (k < length loader)%nat) eqn:Hk.
  - apply bool_decide_eq_true in Hk. rewrite bool_decide_eq_false_2 by lia.
    run_M. split_and!; try done.
    rewrite !count_app, count_validation_events. unfold count. cbn. lia.
  - apply bool_decide_eq_false in Hk. rewrite bool_decide_eq_true_2 by lia.
    run_M. split_and!; try done.
    rewrite !count_app, count_validation_events. unfold count. cbn. lia.
Qed.

Lemma val_loop_runs_within_limit_witness :
  let w := fresh_world init_trainer in
  let r := val_loop validating_module (Some [Batch 0; Batch 1; Batch 2]) (Some 2) w in
  r.1 = Ret () ∧
  count is_validation_step (trace r.2) = (count is_validation_step (trace w) + 2)%nat ∧
  self r.2 = with_current_val_return
               (last_output (λ _ _, OMapping [("loss", Tensor (1 # 4))])
                  [Batch 0; Batch 1] 0 (_current_val_return (self w)))
               (self w) ∧
  grad_enabled r.2 = false ∧
  heap r.2 = heap w ∧ fs r.2 = fs w.
Proof.
  intros w.
  apply (val_loop_runs_within_limit validating_module
           (λ _ _, OMapping [("loss", Tensor (1 # 4))])
           [Batch 0; Batch 1; Batch 2] (Some 2) w); reflexivity.
Defined.

(** What a validation epoch can change, whatever its arguments. *)
Lemma val_loop_effect (model : lightning_module) (val_loader : option (list batch))
    (limit_batches : option Z) (w : world) :
  let r := val_loop model val_loader limit_batches w in
  r.1 = Ret () ∧
  (∃ out, self r.2 = with_current_val_return out (self w)) ∧
  heap r.2 = heap w ∧ fs r.2 = fs w ∧
  ∃ tr, trace r.2 = trace w ++ tr ∧ forallb is_validation_event tr = true.
Proof.
  unfold val_loop.
  destruct val_loader as [loader|]; cbn zeta.
  2:{ split_and!; try done.
      - exists (_current_val_return (self w)). by rewrite with_current_val_return_same.
      - exists []. by rewrite app_nil_r. }
  destruct (model_validation_step model) as [vs|].
  2:{ run_M. split_and!; try done.
      - exists (_current_val_return (self w)). by rewrite with_current_val_return_same.
      - by exists [rank_zero_warn_ev]. }
  repeat (erewrite bind_Ret; [|reflexivity]).
  destruct (should_stop (self w)) eqn:Hstop.
  - destruct loader as [|b rest].
    + run_M. split_and!; try done.
      * exists (_current_val_return (self w)). by rewrite with_current_val_return_same.
      * eexists. rewrite <- !app_assoc. split; [reflexivity|done].
    + erewrite bind_Ret.
      2:{ apply val_batches_early_return. cbn. by rewrite Hstop. }
      run_M. split_and!; try done.
      * exists (_current_val_return (self w)). by rewrite with_current_val_return_same.
      * eexists. rewrite <- !app_assoc. split; [reflexivity|done].
  - erewrite bind_Ret; [|by apply val_batches_run].
    cbn [self heap grad_enabled fs trace snd].
    destruct (bool_decide _); run_M.
    + split_and!; try done; [by eexists|].
      eexists. rewrite <- !app_assoc. split; [reflexivity|].
      cbn. rewrite forallb_app, validation_events_only. done.
    + split_and!; try done; [by eexists|].
      eexists. rewrite <- !app_assoc. split; [reflexivity|].
      cbn. rewrite forallb_app, validation_events_only. done.
Qed.

(** X11. Whatever its arguments, [val_loop] returns normally; of the
    trainer it changes at most the last validation output; it leaves the
    dictionaries and the files alone, and it calls nothing but callbacks,
    validation steps and the warning. *)
Theorem val_loop_frame (model : lightning_module) (val_loader : option (list batch))
    (limit_batches : option Z) (w : world) :
  let r := val_loop model val_loader limit_batches w in
  r.1 = Ret () ∧
  (∃ out, self r.2 = with_current_val_return out (self w)) ∧
  heap r.2 = heap w ∧ fs r.2 = fs w ∧
  ∃ tr, trace r.2 = trace w ++ tr ∧ forallb is_validation_event tr = true.
Proof. apply val_loop_effect. Qed.

(** ** A training epoch in full *)

Lemma stop_now limit ms idx g b rest :
  ge_limit (idx + 1) limit
    || match ms with Some m => bool_decide (m ≤ g + 1) | None => false end = true →
  batches_run limit ms idx g (b :: rest) = 1%nat ∧ stops limit ms idx g (b :: rest) = true.
Proof.
  unfold batches_run, stops, steps_left, ge_limit. cbn [length].
  destruct limit as [l|], ms as [m|]; cbn [orb]; intros H;
    rewrite ?orb_false_r in H;
    repeat (apply orb_true_iff in H as [H|H] || apply bool_decide_eq_true in H);
    try done; (split; [|apply bool_decide_eq_true]); lia.
Qed.

Lemma stop_later limit ms idx g b rest :
  ge_limit (idx + 1) limit
    || match ms with Some m => bool_decide (m ≤ g + 1) | None => false end = false →
  batches_run limit ms idx g (b :: rest) = S (batches_run limit ms (idx + 1) (g + 1) rest) ∧
  stops limit ms idx g (b :: rest) = stops limit ms (idx + 1) (g + 1) rest.
Proof.
  unfold batches_run, stops, steps_left, ge_limit. cbn [length].
  destruct limit as [l|], ms as [m|]; cbn [orb]; intros H;
    rewrite ?orb_false_r in H;
    repeat (apply orb_false_iff in H as [H1 H2]);
    repeat match goal with
           | H : bool_decide _ = false |- _ => apply bool_decide_eq_false in H
           end;
    try done; (split; [|apply bool_decide_ext]); lia.
Qed.

Lemma with_current_train_return_same t :
  with_global_step (global_step t + 0)
    (with_current_train_return (_current_train_return t) t) = t.
Proof. destruct t. unfold with_global_step, with_current_train_return. cbn. by rewrite Z.add_0_r. Qed.

Local Arguments step_scheduler : simpl never.

(** An epoch on which every batch steps the optimizer, in full, for a
    scheduler configuration that is absent or not due at step level. *)
Lemma train_batches_run_quiet model cfg limit iterable :
  (∀ b i, is_Some (loss_of (model_training_step model b i))) →
  (∀ v w, step_scheduler model cfg "step" v w = (Ret (), w)) →
  ∀ idx w,
    grad_accum_steps (self w) = 1 → should_stop (self w) = false →
    let g := global_step (self w) in
    let k := batches_run limit (max_steps (self w)) idx g iterable in
    train_batches model iterable idx limit cfg w =
      (Ret (),
       {| self :=
            (if stops limit (max_steps (self w)) idx g iterable
             then with_should_stop true else id)
              (with_global_step (g + Z.of_nat k)
                 (with_current_train_return
                    (last_output (model_training_step model) (take k iterable) idx
                       (_current_train_return (self w)))
                    (self w)));
          heap := heap w; grad_enabled := grad_enabled w; fs := fs w;
          trace := trace w ++ train_events k idx |}).
Proof.
  intros Hgood Hquiet.
  induction iterable as [|b rest IH]; intros idx w HA Hstop g k; subst g k.
  - assert (batches_run limit (max_steps (self w)) idx (global_step (self w)) [] = 0%nat) as ->.
    { unfold batches_run. by destruct (steps_left _ _ _ _). }
    assert (stops limit (max_steps (self w)) idx (global_step (self w)) [] = false) as ->.
    { unfold stops. destruct (steps_left _ _ _ _); [|done].
      apply bool_decide_eq_false. cbn [length]. lia. }
    cbn. rewrite with_current_train_return_same, app_nil_r. by destruct w.
  - cbn [train_batches]. run_M. rewrite HA.
    rewrite (bool_decide_eq_false_2 (1 = 0)) by done. cbn.
    rewrite Z.mod_1_r. rewrite !(bool_decide_eq_true_2 (0 = 0)) by done. cbn.
    destruct (Hgood b idx) as [t Ht].
    rewrite (optimizer_step_run _ _ _ _ t Ht). cbn.
    rewrite Hquiet. cbn.
    rewrite Hstop. cbn [orb].
    destruct (ge_limit (idx + 1) limit
              || match max_steps (self w) with
                 | Some m => bool_decide (m ≤ global_step (self w) + 1)
                 | None => false
                 end) eqn:Hcond.
    + destruct (stop_now _ _ _ _ b rest Hcond) as [-> ->].
      cbn. rewrite <- !app_assoc. reflexivity.
    + destruct (stop_later _ _ _ _ b rest Hcond) as [-> ->].
      rewrite IH by done. cbn [self heap grad_enabled fs trace max_steps global_step
                               with_global_step with_current_train_return
                               _current_train_return take last_output train_events].
      replace (global_step (self w) +
               Z.of_nat (S (batches_run limit (max_steps (self w)) (idx + 1)
                              (global_step (self w) + 1) rest)))
        with (global_step (self w) + 1 +
              Z.of_nat (batches_run limit (max_steps (self w)) (idx + 1)
                          (global_step (self w) + 1) rest)) by lia.
      rewrite <- !app_assoc. reflexivity.
Qed.

Lemma count_train_events k idx :
  count is_training_step (train_events k idx) = k ∧
  count is_optimizer_step (train_events k idx) = k.
Proof.
  revert idx. induction k as [|k IH]; intros idx; [done|].
  cbn [train_events]. rewrite !count_app. destruct (IH (idx + 1)) as [-> ->]. done.
Qed.

Lemma train_loop_run_quiet model cfg limit loader w :
  (∀ b i, is_Some (loss_of (model_training_step model b i))) →
  (∀ v w, step_scheduler model cfg "step" v w = (Ret (), w)) →
  grad_accum_steps (self w) = 1 → should_stop (self w) = false →
  let g := global_step (self w) in
  let k := batches_run limit (max_steps (self w)) 0 g loader in
  train_loop model loader limit cfg w =
    (Ret (),
     {| self :=
          (if stops limit (max_steps (self w)) 0 g loader
           then with_should_stop true else id)
            (with_global_step (g + Z.of_nat k)
               (with_current_train_return
                  (last_output (model_training_step model) (take k loader) 0
                     (_current_train_return (self w)))
                  (self w)));
        heap := heap w; grad_enabled := grad_enabled w; fs := fs w;
        trace := trace w ++ [fabric_call_ev "on_train_epoch_start"] ++ train_events k 0
                   ++ [fabric_call_ev "on_train_epoch_end"] |}).
Proof.
  intros Hgood Hquiet HA Hstop g k. unfold train_loop.
  erewrite bind_Ret; [|reflexivity].
  erewrite bind_Ret; [|by apply train_batches_run_quiet].
  unfold fabric_call, emit. cbn. rewrite <- !app_assoc. reflexivity.
Qed.

(** A training epoch without a scheduler, in full. *)
Lemma train_loop_run model limit loader w :
  (∀ b i, is_Some (loss_of (model_training_step model b i))) →
  grad_accum_steps (self w) = 1 → should_stop (self w) = false →
  let g := global_step (self w) in
  let k := batches_run limit (max_steps (self w)) 0 g loader in
  train_loop model loader limit PyNone w =
    (Ret (),
     {| self :=
          (if stops limit (max_steps (self w)) 0 g loader
           then with_should_stop true else id)
            (with_global_step (g + Z.of_nat k)
               (with_current_train_return
                  (last_output (model_training_step model) (take k loader) 0
                     (_current_train_return (self w)))
                  (self w)));
        heap := heap w; grad_enabled := grad_enabled w; fs := fs w;
        trace := trace w ++ [fabric_call_ev "on_train_epoch_start"] ++ train_events k 0
                   ++ [fabric_call_ev "on_train_epoch_end"] |}).
Proof.
  intros Hgood HA Hstop. apply train_loop_run_quiet; [done| |done|done].
  intros v w'. apply step_scheduler_absent.
Qed.

(** X12. With accumulation factor [1], no scheduler and no step limit, a
    training epoch with batch limit [l] over [N] batches goes through
    [min N (max 1 l)] of them, each with an optimizer step: the limit is
    tested after a batch, so one batch runs even for [l <= 0]; and reaching
    the limit sets [should_stop], which ends the whole training. *)
Theorem train_loop_batch_limit (model : lightning_module) (loader : list batch)
    (l : Z) (w : world) :
  (∀ b i, is_Some (loss_of (model_training_step model b i))) →
  grad_accum_steps (self w) = 1 → should_stop (self w) = false →
  max_steps (self w) = None →
  let n := Nat.min (length loader) (Nat.max 1 (Z.to_nat l)) in
  let r := train_loop model loader (Some l) PyNone w in
  r.1 = Ret () ∧
  count is_training_step (trace r.2) = (count is_training_step (trace w) + n)%nat ∧
  count is_optimizer_step (trace r.2) = (count is_optimizer_step (trace w) + n)%nat ∧
  global_step (self r.2) = global_step (self w) + Z.of_nat n ∧
  should_stop (self r.2) = bool_decide (Nat.max 1 (Z.to_nat l) ≤ length loader)%nat.
Proof.
  intros Hgood HA Hstop Hmax n r. subst n r.
  rewrite train_loop_run by done. rewrite Hmax.
  unfold batches_run, stops, steps_left. rewrite Z.sub_0_r. cbn [fst snd self trace].
  rewrite !count_app.
  destruct (count_train_events (Nat.min (length loader) (Nat.max 1 (Z.to_nat l))) 0) as [-> ->].
  split_and!; [done|unfold count; cbn; lia|unfold count; cbn; lia| |].
  - by destruct (bool_decide _).
  - destruct (bool_decide _); [done|]. cbn. done.
Qed.

Lemma train_loop_batch_limit_witness :
  let w := fresh_world (trainer_with 1 None CHECKPOINT_PATH) in
  let r := train_loop validating_module [Batch 0; Batch 1; Batch 2] (Some 0) PyNone w in
  r.1 = Ret () ∧
  count is_training_step (trace r.2) = (count is_training_step (trace w) + 1)%nat ∧
  count is_optimizer_step (trace r.2) = (count is_optimizer_step (trace w) + 1)%nat ∧
  global_step (self r.2) = global_step (self w) + 1 ∧
  should_stop (self r.2) = true.
Proof.
  intros w.
  apply (train_loop_batch_limit validating_module [Batch 0; Batch 1; Batch 2] 0 w);
    try reflexivity.
  intros b i. by eexists.
Defined.

(** X13. With accumulation factor [1], no scheduler and no batch limit, a
    training epoch under [max_steps = m] performs
    [min N (max 1 (m - global_step))] optimizer steps: one step is taken even
    when [global_step] has reached [m] before the epoch; [should_stop] is set
    exactly when the limit ended the epoch. *)
Theorem train_loop_max_steps (model : lightning_module) (loader : list batch)
    (m : Z) (w : world) :
  (∀ b i, is_Some (loss_of (model_training_step model b i))) →
  grad_accum_steps (self w) = 1 → should_stop (self w) = false →
  max_steps (self w) = Some m →
  let left := Nat.max 1 (Z.to_nat (m - global_step (self w))) in
  let n := Nat.min (length loader) left in
  let r := train_loop model loader None PyNone w in
  r.1 = Ret () ∧
  count is_optimizer_step (trace r.2) = (count is_optimizer_step (trace w) + n)%nat ∧
  global_step (self r.2) = global_step (self w) + Z.of_nat n ∧
  should_stop (self r.2) = bool_decide (left ≤ length loader)%nat.
Proof.
  intros Hgood HA Hstop Hmax left n r. subst left n r.
  rewrite train_loop_run by done. rewrite Hmax.
  unfold batches_run, stops, steps_left. cbn [fst snd self trace].
  rewrite !count_app.
  destruct (count_train_events
              (Nat.min (length loader) (Nat.max 1 (Z.to_nat (m - global_step (self w))))) 0)
    as [_ ->].
  split_and!; [done|unfold count; cbn; lia| |].
  - by destruct (bool_decide _).
  - destruct (bool_decide _); [done|]. cbn. done.
Qed.

Lemma train_loop_max_steps_witness :
  let w := fresh_world {| grad_accum_steps := 1; should_stop := false; global_step := 7;
                          current_epoch := 0; max_steps := Some 5; max_epochs := None;
                          validation_frequency := 1;
                          _current_train_return := OMapping [];
                          _current_val_return := OMapping [];
                          checkpoint_dir := CHECKPOINT_PATH; strategy_is_fsdp := false |} in
  let r := train_loop validating_module [Batch 0; Batch 1; Batch 2] None PyNone w in
  r.1 = Ret () ∧
  count is_optimizer_step (trace r.2) = (count is_optimizer_step (trace w) + 1)%nat ∧
  global_step (self r.2) = 7 + 1 ∧
  should_stop (self r.2) = true.
Proof.
  intros w.
  apply (train_loop_max_steps validating_module [Batch 0; Batch 1; Batch 2] 5 w);
    try reflexivity.
  intros b i. by eexists.
Defined.

(** X14. With [grad_accum_steps = 0] a training epoch over at least one
    batch raises [ZeroDivisionError] at its first batch, after the two
    opening callbacks and before any training step; over no batch it
    returns, having called the two epoch callbacks. *)
Theorem train_loop_zero_accumulation (model : lightning_module) (b : batch)
    (rest : list batch) (limit_batches : option Z) (scheduler_cfg : pyobj) (w : world) :
  grad_accum_steps (self w) = 0 →
  let r := train_loop model (b :: rest) limit_batches scheduler_cfg w in
  r.1 = Raise ZeroDivisionError ∧
  self r.2 = self w ∧
  trace r.2 = trace w ++ [fabric_call_ev "on_train_epoch_start";
                          fabric_call_ev "on_train_batch_start"] ∧
  train_loop model [] limit_batches scheduler_cfg w =
    (Ret (), (emit (fabric_call_ev "on_train_epoch_end")
                (emit (fabric_call_ev "on_train_epoch_start") w).2).2).
Proof.
  intros HA r. subst r. unfold train_loop. cbn [train_batches]. run_M. rewrite HA.
  rewrite bool_decide_eq_true_2 by done. cbn. rewrite <- app_assoc. done.
Qed.

Lemma train_loop_zero_accumulation_witness :
  let w := fresh_world (trainer_with 0 None CHECKPOINT_PATH) in
  let r := train_loop validating_module [Batch 0; Batch 1] None PyNone w in
  r.1 = Raise ZeroDivisionError ∧
  self r.2 = self w ∧
  trace r.2 = trace w ++ [fabric_call_ev "on_train_epoch_start";
                          fabric_call_ev "on_train_batch_start"] ∧
  train_loop validating_module [] None PyNone w =
    (Ret (), (emit (fabric_call_ev "on_train_epoch_end")
                (emit (fabric_call_ev "on_train_epoch_start") w).2).2).
Proof.
  intros w.
  apply (train_loop_zero_accumulation validating_module (Batch 0) [Batch 1] None PyNone w).
  reflexivity.
Defined.

(** X15. When [global_step] is not a multiple of the accumulation factor
    at the start of a training epoch, the epoch performs no optimizer step
    and leaves [global_step] as it is, whatever the loader, the batch limit
    and the scheduler. *)
Theorem train_loop_stuck_counter (model : lightning_module) (loader : list batch)
    (limit_batches : option Z) (scheduler_cfg : pyobj) (w : world) :
  grad_accum_steps (self w) ≠ 0 →
  global_step (self w) `mod` grad_accum_steps (self w) ≠ 0 →
  let r := train_loop model loader limit_batches scheduler_cfg w in
  global_step (self r.2) = global_step (self w) ∧
  count is_optimizer_step (trace r.2) = count is_optimizer_step (trace w).
Proof.
  intros HA Hmod r. subst r. unfold train_loop. run_M.
  match goal with
  | |- context [train_batches model loader 0 limit_batches scheduler_cfg ?w1] =>
      pose proof (train_batches_stuck model loader 0 limit_batches scheduler_cfg w1 HA Hmod)
        as (Hg & _ & Hc);
      destruct (train_batches model loader 0 limit_batches scheduler_cfg w1) as [[[]|e] w2]
  end; cbn in *; rewrite count_snoc in Hc; cbn in Hc.
  - rewrite count_snoc. cbn. split; lia.
  - split; lia.
Qed.

Lemma train_loop_stuck_counter_witness :
  let w := fresh_world (with_global_step 1 (trainer_with 4 None CHECKPOINT_PATH)) in
  let r := train_loop validating_module [Batch 0; Batch 1; Batch 2; Batch 3; Batch 4] None
             PyNone w in
  global_step (self r.2) = global_step (self w) ∧
  count is_optimizer_step (trace r.2) = count is_optimizer_step (trace w).
Proof.
  intros w.
  apply (train_loop_stuck_counter validating_module
           [Batch 0; Batch 1; Batch 2; Batch 3; Batch 4] None PyNone w); done.
Defined.

(** ** Saving and loading without a state, and twice *)

Lemma save_None w : save None w = save (Some (fresh (dom (heap w)))) (with_empty_dict w).
Proof. reflexivity. Qed.

Lemma load_None path w :
  load None path w = load (Some (fresh (dom (heap w)))) path (with_empty_dict w).
Proof. reflexivity. Qed.

(** X16. [save] without a state mapping writes a record that holds
    exactly the two counters and leaves every existing dictionary as it is;
    [load] without a state mapping, on the file written, returns normally
    and takes over both counters. *)
Theorem save_without_state_round_trip (w : world) :
  let saved := save None w in
  let path := checkpoint_path (self w) in
  saved.1 = Ret () ∧
  read_file (fs saved.2) path =
    Some {[ "current_epoch" := PyInt (current_epoch (self w));
            "global_step" := PyInt (global_step (self w)) ]} ∧
  (∀ l d, heap w !! l = Some d → heap saved.2 !! l = Some d) ∧
  (∀ w2, fs w2 = fs saved.2 →
     (load None path w2).1 = Ret () ∧
     current_epoch (self (load None path w2).2) = current_epoch (self w) ∧
     global_step (self (load None path w2).2) = global_step (self w)).
Proof.
  intros saved path. subst saved path. rewrite save_None.
  rewrite (save_run (with_empty_dict w) _ ∅) by apply lookup_insert_eq.
  cbn [fst snd fs heap self with_empty_dict].
  split_and!.
  - done.
  - rewrite read_write_file. unfold saved_record. by rewrite insert_empty.
  - intros l d Hl. rewrite insert_insert_eq.
    rewrite lookup_insert_ne; [done|]. intros <-.
    apply (is_fresh (dom (heap w))). apply elem_of_dom. eauto.
  - intros w2 Hfs. rewrite load_None.
    rewrite (load_run (with_empty_dict w2) _ ∅ (saved_record (self w) ∅)
               (checkpoint_path (self w)) (global_step (self w)) (current_epoch (self w)));
      cbn [fst snd self with_empty_dict heap fs].
    + rewrite leftover_saved_record by done.
      by rewrite bool_decide_eq_true_2.
    + apply lookup_insert_eq.
    + rewrite Hfs. apply read_write_file.
    + set_solver.
    + set_solver.
    + set_solver.
    + unfold saved_record. by rewrite lookup_insert_ne, lookup_insert_eq.
    + unfold saved_record. by rewrite lookup_insert_eq.
Qed.

(** X17. [load] is not all-or-nothing: when the persisted record holds an
    entry the state mapping does not name, the call raises the integrity
    error, whose leftover shows that entry and neither counter, and the
    trainer's [global_step] and [current_epoch] are already those of the
    record. *)
Theorem load_overwrites_before_it_fails (w : world) (l : loc)
    (d checkpoint : gmap string pyobj) (path : string) (g e : Z) (k : string) (v : pyobj) :
  heap w !! l = Some d →
  read_file (fs w) path = Some checkpoint →
  dom d ⊆ dom checkpoint →
  "global_step" ∉ dom d → "current_epoch" ∉ dom d →
  checkpoint !! "global_step" = Some (PyInt g) →
  checkpoint !! "current_epoch" = Some (PyInt e) →
  checkpoint !! k = Some v → k ∉ dom d → k ≠ "global_step" → k ≠ "current_epoch" →
  let r := load (Some l) path w in
  (∃ remainder, r.1 = Raise (RuntimeError_unused_values remainder) ∧
                remainder !! k = Some v ∧
                remainder !! "global_step" = None ∧ remainder !! "current_epoch" = None) ∧
  global_step (self r.2) = g ∧ current_epoch (self r.2) = e.
Proof.
  intros Hl Hfile Hsub Hg He Hcg Hce Hk Hkd Hkg Hke r. subst r.
  rewrite (load_run w l d checkpoint path g e) by done.
  assert (Hin : leftover checkpoint d !! k = Some v).
  { unfold leftover. rewrite !lookup_delete_ne by done.
    apply lookup_difference_Some. split; [done|]. by apply not_elem_of_dom. }
  rewrite bool_decide_eq_false_2.
  2:{ intros Hempty. rewrite Hempty in Hin. by rewrite lookup_empty in Hin. }
  cbn. split; [|done]. eexists. split_and!; [done|done| |].
  - unfold leftover. rewrite lookup_delete_ne by done. apply lookup_delete_eq.
  - unfold leftover. apply lookup_delete_eq.
Qed.

Lemma load_overwrites_before_it_fails_witness :
  let r := load (Some 0%nat) "ckpts/epoch-0003.ckpt" leftover_world in
  (∃ remainder, r.1 = Raise (RuntimeError_unused_values remainder) ∧
                remainder !! "optim" = Some (PyOptimizer (Optimizer "adam")) ∧
                remainder !! "global_step" = None ∧ remainder !! "current_epoch" = None) ∧
  global_step (self r.2) = 15 ∧ current_epoch (self r.2) = 3.
Proof.
  apply (load_overwrites_before_it_fails leftover_world 0%nat
           {[ "model" := PyModel "net" ]}
           {[ "model" := PyModel "net"; "optim" := PyOptimizer (Optimizer "adam");
              "global_step" := PyInt 15; "current_epoch" := PyInt 3 ]}
           "ckpts/epoch-0003.ckpt" 15 3 "optim" (PyOptimizer (Optimizer "adam")));
    try reflexivity; try done.
  apply (bool_decide_unpack _). vm_compute. reflexivity.
Defined.

(** X18. The mapping that was passed to [save] cannot be passed to [load]:
    [save] has put the two counters into it, so loading the file just
    written restores them as components, finds no counter in the leftover
    and raises [KeyError] for [global_step]; the trainer is unchanged. *)
Theorem load_into_saved_mapping_fails (w : world) (l : loc) (d : gmap string pyobj) :
  heap w !! l = Some d →
  let saved := save (Some l) w in
  let r := load (Some l) (checkpoint_path (self w)) saved.2 in
  saved.1 = Ret () ∧
  r.1 = Raise (KeyError "global_step") ∧
  self r.2 = self w ∧ heap r.2 = heap saved.2.
Proof.
  intros Hl saved r. subst saved r. rewrite (save_run w l d Hl). cbn [fst snd].
  split; [done|].
  pose proof (read_write_file (fs w) (checkpoint_path (self w)) (saved_record (self w) d))
    as Hread.
  unfold read_file in Hread. unfold load, fabric_load. run_M.
  destruct (os_path_split (checkpoint_path (self w))) as [dir name]. cbn in Hread.
  unfold mbind in Hread. rewrite Hread. cbn. rewrite lookup_insert_eq. cbn.
  assert (elements (dom (saved_record (self w) d) ∖ dom (saved_record (self w) d)) = []) as ->.
  { apply elements_empty_iff. set_solver. }
  run_M. unfold pop_counter. rewrite map_difference_diag, lookup_empty. run_M.
  split_and!; [done|done|].
  rewrite insert_insert_eq. f_equal.
  apply map_eq. intros k. rewrite map_lookup_filter.
  destruct (saved_record (self w) d !! k) as [x|] eqn:Hk; cbn; [|done].
  rewrite option_guard_True; [done|]. cbn. apply elem_of_dom. eauto.
Qed.

Lemma load_into_saved_mapping_fails_witness :
  let saved := save (Some 0%nat) C7_world in
  let r := load (Some 0%nat) (checkpoint_path (self C7_world)) saved.2 in
  saved.1 = Ret () ∧
  r.1 = Raise (KeyError "global_step") ∧
  self r.2 = self C7_world ∧ heap r.2 = heap saved.2.
Proof.
  apply (load_into_saved_mapping_fails C7_world 0%nat C7_state). reflexivity.
Defined.

(** ** Checkpoint names and their order *)

Lemma names_ascend_below_10000 : forallb names_ascend (seqZ 0 9999) = true.
Proof. vm_compute. reflexivity. Qed.

Lemma names_ascend_step (n : Z) :
  0 ≤ n < 9999 →
  String.le (checkpoint_name n) (checkpoint_name (n + 1)) ∧
  checkpoint_name n ≠ checkpoint_name (n + 1).
Proof.
  intros Hn. pose proof names_ascend_below_10000 as H.
  rewrite forallb_forall in H. specialize (H n).
  unfold names_ascend in H. rewrite andb_true_iff, negb_true_iff in H.
  destruct H as [H1 H2].
  { apply list_elem_of_In, elem_of_seqZ. lia. }
  split; [by apply bool_decide_eq_true in H1|by apply bool_decide_eq_false in H2].
Qed.

Lemma names_monotone_nat (a : Z) (d : nat) :
  0 ≤ a → a + Z.of_nat d ≤ 9999 →
  String.le (checkpoint_name a) (checkpoint_name (a + Z.of_nat d)).
Proof.
  intros Ha. induction d as [|d IH]; intros Hb.
  - rewrite Z.add_0_r. reflexivity.
  - etrans; [apply IH; lia|].
    replace (a + Z.of_nat (S d)) with (a + Z.of_nat d + 1) by lia.
    apply names_ascend_step. lia.
Qed.

Lemma names_monotone (a b : Z) :
  0 ≤ a ≤ b → b ≤ 9999 → String.le (checkpoint_name a) (checkpoint_name b).
Proof.
  intros Hab Hb.
  pose proof (names_monotone_nat a (Z.to_nat (b - a))) as H.
  rewrite Z2Nat.id in H by lia.
  replace (a + (b - a)) with b in H by lia. apply H; lia.
Qed.

(** X19. The file names of two epochs between [0] and [9999] are in the
    lexicographic order of the epochs, and differ.  The name of epoch
    [10000] is longer and sorts before that of every epoch from [1001] to
    [9999]. *)
Theorem checkpoint_names_in_epoch_order (a b : Z) :
  0 ≤ a → a < b → b ≤ 9999 →
  String.le (checkpoint_name a) (checkpoint_name b) ∧
  checkpoint_name a ≠ checkpoint_name b ∧
  (1001 ≤ b →
   String.le (checkpoint_name 10000) (checkpoint_name b) ∧
   checkpoint_name 10000 ≠ checkpoint_name b).
Proof.
  intros Ha Hab Hb. split_and!.
  - apply names_monotone; lia.
  - intros Heq.
    destruct (names_ascend_step a) as [Hle Hne]; [lia|].
    apply Hne. apply (anti_symm String.le); [done|].
    rewrite Heq. apply names_monotone; lia.
  - intros Hb'.
    assert (H1 : String.le (checkpoint_name 1001) (checkpoint_name b))
      by (apply names_monotone; lia).
    assert (H2 : String.le (checkpoint_name 10000) (checkpoint_name 1001))
      by (by vm_compute).
    split; [by etrans|].
    intros Heq. rewrite <- Heq in H1.
    pose proof (anti_symm String.le _ _ H1 H2) as Habs. by vm_compute in Habs.
Qed.

Lemma checkpoint_names_in_epoch_order_witness :
  String.le (checkpoint_name 9) (checkpoint_name 9999) ∧
  checkpoint_name 9 ≠ checkpoint_name 9999 ∧
  (1001 ≤ 9999 →
   String.le (checkpoint_name 10000) (checkpoint_name 9999) ∧
   checkpoint_name 10000 ≠ checkpoint_name 9999).
Proof. apply (checkpoint_names_in_epoch_order 9 9999); lia. Defined.

(** X20. In a directory that holds exactly the checkpoints of some epochs,
    none above [9999], [get_latest_checkpoint] returns the path of the
    checkpoint of the highest epoch. *)
Theorem latest_checkpoint_is_highest_epoch {record} (files : filesystem record)
    (dir : string) (epochs : list Z) (top : Z) :
  os_listdir files dir ≡ₚ checkpoint_name <$> epochs →
  top ∈ epochs → (∀ e, e ∈ epochs → 0 ≤ e ≤ top) → top ≤ 9999 →
  get_latest_checkpoint files dir = Some (os_path_join dir (checkpoint_name top)).
Proof.
  intros Hperm Htop Hrange Hmax.
  assert (Hin : checkpoint_name top ∈ os_listdir files dir).
  { rewrite Hperm. by apply list_elem_of_fmap_2. }
  unfold get_latest_checkpoint.
  assert (os_path_isdir files dir = true) as ->.
  { unfold os_path_isdir, os_listdir in *. destruct (files !! dir).
    - by apply bool_decide_eq_true.
    - by apply elem_of_nil in Hin. }
  cbn. destruct (last (sorted (os_listdir files dir))) as [m|] eqn:Hlast.
  - destruct (last_sorted_max _ _ Hlast) as [Hm Hle].
    rewrite Hperm in Hm. apply list_elem_of_fmap in Hm as (e & -> & He).
    do 2 f_equal. apply (anti_symm String.le).
    + apply names_monotone; [|done]. apply Hrange, He.
    + by apply Hle.
  - apply last_None, sorted_nil_inv in Hlast. rewrite Hlast in Hin.
    by apply elem_of_nil in Hin.
Qed.

Lemma latest_checkpoint_is_highest_epoch_witness :
  get_latest_checkpoint epoch_files "ckpts" =
    Some (os_path_join "ckpts" (checkpoint_name 12)).
Proof.
  apply (latest_checkpoint_is_highest_epoch epoch_files "ckpts" [1; 12; 3] 12).
  - apply (bool_decide_unpack _). vm_compute. reflexivity.
  - set_solver.
  - intros e He. set_unfold. lia.
  - lia.
Defined.

(** ** The training module's optimizer configuration *)

(** What [configure_optimizers] hands out when it returns. *)
Lemma configure_optimizers_returns (torch : torch_optim) (hp : hparams) (x : pyobj) :
  NEAT_TrainingModule_configure_optimizers torch hp = inr x →
  ∃ o s lrs,
    x = PySeq [PySeq [PyOptimizer o]; PySeq [PyScheduler s]] ∧
    hp_lr_scheduler hp !! "lrs" = Some lrs ∧
    if hval_eq_str lrs "ReduceLROnPlateau"
    then ∃ min_lr, hp_lr_scheduler hp !! "min_lr" = Some min_lr ∧
                   ReduceLROnPlateau torch o min_lr = inr s
    else MultiStepLR torch o = inr s.
Proof.
  unfold NEAT_TrainingModule_configure_optimizers, hp_getitem.
  destruct (hp_optimizer hp !! "opt") as [opt|]; [|done]. cbn.
  match goal with
  | |- and_then ?c _ = _ → _ => destruct c as [e|o]; [done|]
  end. cbn.
  destruct (hp_lr_scheduler hp !! "lrs") as [lrs|]; [|done]. cbn.
  match goal with
  | |- and_then ?c _ = _ → _ => destruct c as [e|[]]; [done|]
  end. cbn.
  destruct (hval_eq_str lrs "ReduceLROnPlateau") eqn:Hlrs.
  - destruct (hp_lr_scheduler hp !! "min_lr") as [min_lr|]; [|done]. cbn.
    destruct (ReduceLROnPlateau torch o min_lr) as [e|s] eqn:Hs; [done|]. cbn.
    intros [= <-]. exists o, s, lrs. rewrite Hlrs. split_and!; [done..|].
    by exists min_lr.
  - destruct (MultiStepLR torch o) as [e|s] eqn:Hs; [done|]. cbn.
    intros [= <-]. exists o, s, lrs. rewrite Hlrs. done.
Qed.

(** X24. Whenever [NEAT_TrainingModule.configure_optimizers] returns, the
    result is [([optimizer], [scheduler])], and the scheduler is the
    [ReduceLROnPlateau] one when that name was asked for and the
    [MultiStepLR] one in every other case, [StepLR] included: the scheduler
    built for [StepLR] is never handed out. *)
Theorem configure_optimizers_scheduler (torch : torch_optim) (hp : hparams) (x : pyobj) :
  NEAT_TrainingModule_configure_optimizers torch hp = inr x →
  ∃ o s lrs,
    x = PySeq [PySeq [PyOptimizer o]; PySeq [PyScheduler s]] ∧
    hp_lr_scheduler hp !! "lrs" = Some lrs ∧
    if hval_eq_str lrs "ReduceLROnPlateau"
    then ∃ min_lr, hp_lr_scheduler hp !! "min_lr" = Some min_lr ∧
                   ReduceLROnPlateau torch o min_lr = inr s
    else MultiStepLR torch o = inr s.
Proof. apply configure_optimizers_returns. Qed.

Lemma configure_optimizers_scheduler_witness :
  ∃ o s lrs,
    PySeq [PySeq [PyOptimizer (Optimizer "AdamW")];
           PySeq [PyScheduler (LRScheduler "MultiStepLR")]] =
      PySeq [PySeq [PyOptimizer o]; PySeq [PyScheduler s]] ∧
    hp_lr_scheduler StepLR_hparams !! "lrs" = Some lrs ∧
    if hval_eq_str lrs "ReduceLROnPlateau"
    then ∃ min_lr, hp_lr_scheduler StepLR_hparams !! "min_lr" = Some min_lr ∧
                   ReduceLROnPlateau permissive_torch o min_lr = inr s
    else MultiStepLR permissive_torch o = inr s.
Proof.
  apply (configure_optimizers_scheduler permissive_torch StepLR_hparams). reflexivity.
Defined.

(** X25. Whatever [NEAT_TrainingModule.configure_optimizers] returns is
    rejected by the trainer's normalizer with [TypeError], so [fit] on such a
    module raises before it trains, leaving everything as it was. *)
Theorem training_module_cannot_be_fit (torch : torch_optim) (hp : hparams) (x : pyobj)
    (fuel : nat) (model : lightning_module) (train_loader : list batch)
    (val_loader : option (list batch)) (ckpt_path : option string) (w : world) :
  NEAT_TrainingModule_configure_optimizers torch hp = inr x →
  configure_optimizers model = x →
  strategy_is_fsdp (self w) = false →
  _parse_optimizers_schedulers x = Raise (TypeError "object is not subscriptable") ∧
  fit fuel model train_loader val_loader ckpt_path w =
    (Raise (TypeError "object is not subscriptable"), w).
Proof.
  intros Hcfg Hmodel Hfsdp.
  destruct (configure_optimizers_returns torch hp x Hcfg) as (o & s & lrs & -> & _).
  split; [reflexivity|].
  unfold fit. run_M. rewrite Hfsdp, Hmodel. reflexivity.
Qed.

Lemma training_module_cannot_be_fit_witness :
  let x := PySeq [PySeq [PyOptimizer (Optimizer "AdamW")];
                  PySeq [PyScheduler (LRScheduler "MultiStepLR")]] in
  let model := {| configure_optimizers := x;
                  model_training_step := λ _ _, OOther;
                  model_validation_step := Some (λ _ _, OOther) |} in
  _parse_optimizers_schedulers x = Raise (TypeError "object is not subscriptable") ∧
  fit 3 model [Batch 0] (Some [Batch 0]) None (fresh_world init_trainer) =
    (Raise (TypeError "object is not subscriptable"), fresh_world init_trainer).
Proof.
  intros x model.
  apply (training_module_cannot_be_fit permissive_torch StepLR_hparams x 3 model
           [Batch 0] (Some [Batch 0]) None (fresh_world init_trainer)); reflexivity.
Defined.

(** X26. For an optimizer name other than [Adam] and [SGD],
    [configure_optimizers] never returns: it raises [AssertionError] when a
    hyperparameter [optimizer_name] exists and [AttributeError] when, as
    with the constructor's own parameters, there is none. *)
Theorem configure_optimizers_unknown_optimizer (torch : torch_optim) (hp : hparams)
    (opt : hval) :
  hp_optimizer hp !! "opt" = Some opt →
  hval_eq_str opt "Adam" = false → hval_eq_str opt "SGD" = false →
  NEAT_TrainingModule_configure_optimizers torch hp =
    inl (match hp_optimizer_name hp with
         | Some _ => ModAssertionError "Unknown optimizer"
         | None => ModAttributeError "optimizer_name"
         end).
Proof.
  intros Hopt HA HS. unfold NEAT_TrainingModule_configure_optimizers, hp_getitem.
  rewrite Hopt. cbn. rewrite HA. cbn. rewrite HS.
  by destruct (hp_optimizer_name hp).
Qed.

Lemma configure_optimizers_unknown_optimizer_witness :
  NEAT_TrainingModule_configure_optimizers permissive_torch
    {| hp_optimizer := {[ "opt" := HStr "RMSprop"; "lr" := HNum (1 # 100) ]};
       hp_lr_scheduler := {[ "lrs" := HStr "StepLR" ]};
       hp_optimizer_name := None |} =
    inl (ModAttributeError "optimizer_name").
Proof.
  apply (configure_optimizers_unknown_optimizer permissive_torch
           {| hp_optimizer := {[ "opt" := HStr "RMSprop"; "lr" := HNum (1 # 100) ]};
              hp_lr_scheduler := {[ "lrs" := HStr "StepLR" ]};
              hp_optimizer_name := None |} (HStr "RMSprop"));
    reflexivity.
Defined.

(** ** The progress bar *)

Lemma string_app_assoc (a b c : string) : (a +:+ b) +:+ c = a +:+ (b +:+ c).
Proof.
  induction a as [|x a IH]; [done|].
  change (String x ((a +:+ b) +:+ c) = String x (a +:+ (b +:+ c))). by f_equal.
Qed.

Lemma string_app_nil_r (a : string) : a +:+ "" = a.
Proof.
  induction a as [|x a IH]; [done|].
  change (String x (a +:+ "") = String x a). by f_equal.
Qed.

Lemma postfix_foldl (seg : string * tensor → string) items :
  ∀ acc, foldl (λ s kv, s +:+ seg kv) acc items = acc +:+ foldl (λ s kv, s +:+ seg kv) "" items.
Proof.
  induction items as [|kv items IH]; intros acc; cbn.
  - by rewrite string_app_nil_r.
  - rewrite (IH (acc +:+ seg kv)), (IH ("" +:+ seg kv)).
    change ("" +:+ seg kv) with (seg kv). by rewrite string_app_assoc.
Qed.

(** X27. [_format_iterable] sets no postfix when the bar is not a [tqdm]
    bar, as on every rank but zero, when the candidates are an empty mapping
    and when they are neither a tensor nor a mapping.  For a tensor the
    postfix is the one segment [<prefix>_loss]; for a mapping it starts
    with the segment of the first entry, and is that segment when there is
    no other. *)
Theorem format_iterable_postfix (format_3f : tensor → string) (is_global_zero : bool)
    (iterable : list batch) (candidates : output) (prefix : string) :
  let prog_bar := progbar_wrapper is_global_zero iterable in
  let r := _format_iterable format_3f prog_bar.1 candidates prefix in
  prog_bar.2 = iterable ∧
  (r = None ↔ is_global_zero = false ∨ candidates = OMapping [] ∨ candidates = OOther) ∧
  (∀ t, is_global_zero = true → candidates = OTensor t →
        r = Some (" " +:+ prefix +:+ "_loss: " +:+ format_3f t)) ∧
  (∀ k v rest, is_global_zero = true → candidates = OMapping ((k, v) :: rest) →
        ∃ more, r = Some (" " +:+ prefix +:+ "_" +:+ k +:+ ": " +:+ format_3f v +:+ more) ∧
                (rest = [] → more = "")).
Proof.
  intros prog_bar r. subst prog_bar r. unfold progbar_wrapper, _format_iterable.
  destruct is_global_zero; cbn [fst snd].
  2:{ split_and!; [done| |done|done]. split; [by left|done]. }
  split_and!.
  - done.
  - destruct candidates as [t|[|[k v] rest]|]; cbn [foldl].
    + cbn. split; [done|]. by intros [|[|]].
    + cbn. split; [by right; left|done].
    + rewrite (postfix_foldl (λ kv, " " +:+ prefix +:+ "_" +:+ kv.1 +:+ ": " +:+ format_3f kv.2)).
      cbn. split; [done|]. by intros [|[|]].
    + cbn. split; [by right; right|done].
  - intros t _ ->. cbn. done.
  - intros k v rest _ ->. cbn [foldl].
    rewrite (postfix_foldl (λ kv, " " +:+ prefix +:+ "_" +:+ kv.1 +:+ ": " +:+ format_3f kv.2)).
    cbn. eexists. rewrite !string_app_assoc. split; [reflexivity|].
    intros ->. done.
Qed.

(** ** The epochs of [fit] *)

Lemma should_validate_run w :
  validation_frequency (self w) ≠ 0 →
  should_validate w =
    (Ret (bool_decide (current_epoch (self w) `mod` validation_frequency (self w) = 0)), w).
Proof.
  intros Hvf. unfold should_validate. run_M. by rewrite bool_decide_eq_false_2.
Qed.

Lemma validation_events_count tr :
  forallb is_validation_event tr = true →
  count is_fabric_save tr = 0%nat ∧ count is_optimizer_step tr = 0%nat.
Proof.
  unfold count. induction tr as [|e tr IH]; cbn; [done|].
  intros [He Htr]%andb_true_iff. destruct (IH Htr) as [IH1 IH2].
  by destruct e.
Qed.

Lemma train_events_no_save k idx : count is_fabric_save (train_events k idx) = 0%nat.
Proof.
  revert idx. induction k as [|k IH]; intros idx; [done|].
  cbn [train_events]. rewrite count_app, IH. done.
Qed.

Lemma train_events_no_load k idx : count is_fabric_load (train_events k idx) = 0%nat.
Proof.
  revert idx. induction k as [|k IH]; intros idx; [done|].
  cbn [train_events]. rewrite count_app, IH. done.
Qed.

Lemma validation_events_no_load tr :
  forallb is_validation_event tr = true → count is_fabric_load tr = 0%nat.
Proof.
  unfold count. induction tr as [|e tr IH]; cbn; [done|].
  intros [He Htr]%andb_true_iff. specialize (IH Htr). by destruct e.
Qed.

Lemma maybe_val_loop_effect (flag : bool) model val_loader w :
  let r := (if flag then val_loop model val_loader None else mret ()) w in
  r.1 = Ret () ∧
  (∃ out, self r.2 = with_current_val_return out (self w)) ∧
  heap r.2 = heap w ∧ fs r.2 = fs w ∧
  ∃ tr, trace r.2 = trace w ++ tr ∧ forallb is_validation_event tr = true.
Proof.
  destruct flag; [apply val_loop_effect|]. cbn. split_and!; try done.
  - exists (_current_val_return (self w)). by rewrite with_current_val_return_same.
  - exists []. by rewrite app_nil_r.
Qed.

Local Arguments train_loop : simpl never.
Local Arguments val_loop : simpl never.
Local Arguments save : simpl never.
Local Arguments should_validate : simpl never.

(** One epoch of [fit]. *)
Lemma fit_epoch model tl vl l fuel w d :
  (∀ b i, is_Some (loss_of (model_training_step model b i))) →
  plain_run w → heap w !! l = Some d →
  ∃ w', fit_epochs (S fuel) model tl vl PyNone l w = fit_epochs fuel model tl vl PyNone l w' ∧
        epoch_done (length tl) l w w'.
Proof.
  intros Hgood (HA & Hstop & Hmax & Hvf) Hl.
  cbn [fit_epochs].
  erewrite bind_Ret; [|reflexivity]. cbn [self]. rewrite Hstop.
  erewrite bind_Ret; [|by apply train_loop_run].
  rewrite Hmax. unfold batches_run, stops, steps_left. cbn [id].
  rewrite firstn_all.
  erewrite bind_Ret; [|by apply should_validate_run].
  match goal with
  | |- context [(if ?flag then val_loop model vl None else mret ()) ≫= _] =>
      match goal with
      | |- ∃ w', (_ ≫= _) ?w1 = _ ∧ _ =>
          pose proof (maybe_val_loop_effect flag model vl w1) as Hval;
          destruct ((if flag then val_loop model vl None else mret ()) w1) as [[[]|e] w2] eqn:Hrun
      end
  end; cbn [fst snd self heap fs trace] in Hval;
    destruct Hval as (Hret & [out Hself] & Hheap & Hfs & tr & Htrace & Htr); [|done].
  erewrite bind_Ret; [|exact Hrun].
  erewrite bind_Ret; [|reflexivity].
  erewrite bind_Ret; [|reflexivity].
  erewrite bind_Ret; [|reflexivity].
  erewrite bind_Ret; [|reflexivity].
  cbn [self set_self fst snd].
  match goal with
  | |- context [(if ?c then set_self (with_should_stop true) else mret ()) ≫= _] =>
      destruct c eqn:Hc
  end.
  - erewrite bind_Ret; [|reflexivity].
    erewrite bind_Ret; [|by apply (save_run _ l d); cbn; rewrite Hheap].
    eexists. split; [reflexivity|].
    unfold epoch_done, checkpoint_path, epochs_done.
    cbn [self heap fs trace current_epoch global_step should_stop grad_accum_steps
         max_steps max_epochs validation_frequency checkpoint_dir
         with_should_stop with_current_epoch] in *.
    rewrite Hself in *.
    cbn [self heap fs trace current_epoch global_step should_stop grad_accum_steps
         max_steps max_epochs validation_frequency checkpoint_dir
         with_current_val_return with_global_step with_current_train_return] in *.
    rewrite Hc. split_and!; try done.
    + eexists. split_and!.
      * apply lookup_insert_eq.
      * apply read_write_file.
      * unfold saved_record. cbn. by rewrite lookup_insert_eq.
      * unfold saved_record. cbn. by rewrite lookup_insert_ne, lookup_insert_eq.
    + rewrite Htrace, !count_app, train_events_no_save.
      destruct (validation_events_count tr Htr) as [-> _]. unfold count. cbn. lia.
    + rewrite Htrace, !count_app.
      destruct (count_train_events (length tl) 0) as [_ ->].
      destruct (validation_events_count tr Htr) as [_ ->]. unfold count. cbn. lia.
    + rewrite Htrace, !count_app, train_events_no_load, (validation_events_no_load tr Htr).
      unfold count. cbn. lia.
  - erewrite bind_Ret; [|reflexivity].
    erewrite bind_Ret; [|by apply (save_run _ l d); cbn; rewrite Hheap].
    eexists. split; [reflexivity|].
    unfold epoch_done, checkpoint_path, epochs_done.
    cbn [self heap fs trace current_epoch global_step should_stop grad_accum_steps
         max_steps max_epochs validation_frequency checkpoint_dir
         with_should_stop with_current_epoch] in *.
    rewrite Hself in *.
    cbn [self heap fs trace current_epoch global_step should_stop grad_accum_steps
         max_steps max_epochs validation_frequency checkpoint_dir
         with_current_val_return with_global_step with_current_train_return] in *.
    rewrite Hc. split_and!; try done.
    + eexists. split_and!.
      * apply lookup_insert_eq.
      * apply read_write_file.
      * unfold saved_record. cbn. by rewrite lookup_insert_eq.
      * unfold saved_record. cbn. by rewrite lookup_insert_ne, lookup_insert_eq.
    + rewrite Htrace, !count_app, train_events_no_save.
      destruct (validation_events_count tr Htr) as [-> _]. unfold count. cbn. lia.
    + rewrite Htrace, !count_app.
      destruct (count_train_events (length tl) 0) as [_ ->].
      destruct (validation_events_count tr Htr) as [_ ->]. unfold count. cbn. lia.
    + rewrite Htrace, !count_app, train_events_no_load, (validation_events_no_load tr Htr).
      unfold count. cbn. lia.
Qed.

Lemma fit_epochs_stopped fuel model tl vl cfg l w :
  should_stop (self w) = true →
  fit_epochs fuel model tl vl cfg l w = (Ret true, w).
Proof.
  intros Hstop. destruct fuel; cbn [fit_epochs];
    (erewrite bind_Ret; [|reflexivity]); cbn [self]; by rewrite Hstop.
Qed.

(** The epochs of [fit] up to the epoch limit. *)
Lemma fit_epochs_to_limit model tl vl l M (n : nat) :
  (∀ b i, is_Some (loss_of (model_training_step model b i))) →
  ∀ fuel w d,
    plain_run w → heap w !! l = Some d → max_epochs (self w) = Some M →
    Z.of_nat n = Z.max 1 (M - current_epoch (self w)) → (n ≤ fuel)%nat →
    ∃ w', fit_epochs fuel model tl vl PyNone l w = (Ret true, w') ∧
          current_epoch (self w') = current_epoch (self w) + Z.of_nat n ∧
          global_step (self w') = global_step (self w) + Z.of_nat n * Z.of_nat (length tl) ∧
          checkpoint_dir (self w') = checkpoint_dir (self w) ∧
          (∃ d', read_file (fs w') (checkpoint_path (self w')) = Some d' ∧
                 d' !! "current_epoch" = Some (PyInt (current_epoch (self w'))) ∧
                 d' !! "global_step" = Some (PyInt (global_step (self w')))) ∧
          count is_fabric_save (trace w') = (count is_fabric_save (trace w) + n)%nat ∧
          count is_optimizer_step (trace w') =
            (count is_optimizer_step (trace w) + n * length tl)%nat ∧
          count is_fabric_load (trace w') = count is_fabric_load (trace w).
Proof.
  intros Hgood. induction n as [|n IH]; intros fuel w d Hplain Hl HM Hn Hfuel; [lia|].
  destruct fuel as [|fuel]; [lia|].
  destruct (fit_epoch model tl vl l fuel w d Hgood Hplain Hl) as (w1 & -> & Hdone).
  destruct Hplain as (HA & Hstop & Hmax & Hvf).
  destruct Hdone as (HA1 & Hmax1 & Hvf1 & HM1 & Hdir1 & He1 & Hg1 & Hstop1 &
                     (d1 & Hl1 & Hfile1 & Hce1 & Hgs1) & Hsave1 & Hopt1 & Hload1).
  rewrite HM in Hstop1, HM1. unfold epochs_done in Hstop1.
  destruct (decide (M ≤ current_epoch (self w) + 1)) as [Hle|Hgt].
  - rewrite bool_decide_eq_true_2 in Hstop1 by done.
    rewrite fit_epochs_stopped by done.
    assert (n = 0%nat) as -> by lia.
    exists w1. split_and!; [done|lia|lia|done|by exists d1|lia|lia|done].
  - rewrite bool_decide_eq_false_2 in Hstop1 by done.
    destruct (IH fuel w1 d1) as (w' & -> & He & Hg & Hdir & Hfile & Hsave & Hopt & Hload).
    + split_and!; [done|done|done|by rewrite Hvf1].
    + done.
    + done.
    + lia.
    + lia.
    + exists w'. split_and!; [done|lia|lia|congruence|done|lia|lia|congruence].
Qed.

(** The epochs of [fit] when nothing limits them. *)
Lemma fit_epochs_unlimited model tl vl l :
  (∀ b i, is_Some (loss_of (model_training_step model b i))) →
  ∀ fuel w d,
    plain_run w → heap w !! l = Some d → max_epochs (self w) = None →
    ∃ w', fit_epochs fuel model tl vl PyNone l w = (Ret false, w') ∧
          should_stop (self w') = false ∧
          current_epoch (self w') = current_epoch (self w) + Z.of_nat fuel ∧
          count is_fabric_save (trace w') = (count is_fabric_save (trace w) + fuel)%nat.
Proof.
  intros Hgood. induction fuel as [|fuel IH]; intros w d Hplain Hl HM.
  - exists w. destruct Hplain as (HA & Hstop & Hmax & Hvf). cbn [fit_epochs].
    erewrite bind_Ret; [|reflexivity]. cbn [self]. rewrite Hstop.
    split_and!; [done|done|lia|lia].
  - destruct (fit_epoch model tl vl l fuel w d Hgood Hplain Hl) as (w1 & -> & Hdone).
    destruct Hplain as (HA & Hstop & Hmax & Hvf).
    destruct Hdone as (HA1 & Hmax1 & Hvf1 & HM1 & Hdir1 & He1 & Hg1 & Hstop1 &
                       (d1 & Hl1 & Hfile1 & Hce1 & Hgs1) & Hsave1 & Hopt1 & Hload1).
    rewrite HM in Hstop1, HM1. cbn in Hstop1.
    destruct (IH w1 d1) as (w' & -> & Hs & He & Hsave).
    + split_and!; [done|done|done|by rewrite Hvf1].
    + done.
    + done.
    + exists w'. split_and!; [done|done|lia|lia].
Qed.

(** The first epoch of [fit] when the validation frequency is zero. *)
Lemma fit_epochs_zero_validation_frequency model tl vl l fuel w :
  (∀ b i, is_Some (loss_of (model_training_step model b i))) →
  grad_accum_steps (self w) = 1 → should_stop (self w) = false →
  max_steps (self w) = None → validation_frequency (self w) = 0 →
  fit_epochs (S fuel) model tl vl PyNone l w =
    (Raise ZeroDivisionError, (train_loop model tl None PyNone w).2).
Proof.
  intros Hgood HA Hstop Hmax Hvf. cbn [fit_epochs].
  erewrite bind_Ret; [|reflexivity]. cbn [self]. rewrite Hstop.
  erewrite bind_Ret; [|by apply train_loop_run].
  rewrite train_loop_run by done.
  rewrite Hmax. unfold batches_run, stops, steps_left. cbn [id snd].
  erewrite bind_Raise; [reflexivity|].
  unfold should_validate. run_M. rewrite Hvf. by rewrite bool_decide_eq_true_2.
Qed.

(** One turn of the loop of [fit]. *)
Lemma fit_epochs_S fuel model tl vl cfg l :
  fit_epochs (S fuel) model tl vl cfg l =
    (t ← get_self;
     if should_stop t then mret true else
     train_loop model tl None cfg;;
     v ← should_validate;
     (if (v : bool) then val_loop model vl None else mret ());;
     t ← get_self;
     step_scheduler model cfg "epoch" (current_epoch t);;
     set_self (λ t, with_current_epoch (current_epoch t + 1) t);;
     t ← get_self;
     (if match max_epochs t with
         | Some m => bool_decide (m ≤ current_epoch t)
         | None => false
         end
      then set_self (with_should_stop true) else mret ());;
     save (Some l);;
     fit_epochs fuel model tl vl cfg l).
Proof. reflexivity. Qed.

Local Arguments fit_epochs : simpl never.

(** The prefix of [fit] for a module that configures a single optimizer and
    no checkpoint directory to resume from. *)
Lemma fit_unfold fuel model o tl vl w :
  configure_optimizers model = PyOptimizer o →
  strategy_is_fsdp (self w) = false →
  let l := fresh (dom (heap w)) in
  let w0 := {| self := self w;
               heap := <[l := fit_state (PyOptimizer o) PyNone]> (heap w);
               grad_enabled := grad_enabled w; fs := fs w; trace := trace w |} in
  fit fuel model tl vl None w =
    let r := fit_epochs fuel model tl vl PyNone l w0 in
    match r.1 with
    | Ret true => (Ret true, (set_self (with_should_stop false) r.2).2)
    | Ret false => (Ret false, r.2)
    | Raise e => (Raise e, r.2)
    end.
Proof.
  intros Hcfg Hfsdp l w0. subst l w0. unfold fit, fit_state. run_M.
  rewrite Hfsdp, Hcfg. cbn.
  destruct (fit_epochs _ _ _ _ _ _ _) as [[[]|e] w1]; reflexivity.
Qed.

(** X21. For a module that configures a single optimizer and whose
    training step always yields a loss, [fit] without a checkpoint
    directory, with accumulation factor [1] and no step limit, runs
    [max 1 (max_epochs - current_epoch)] epochs and returns: one epoch runs
    even when the epoch limit is already met.  Each epoch steps the
    optimizer once per batch and writes one checkpoint; afterwards
    [should_stop] is reset and the file of the last epoch holds the final
    counters. *)
Theorem fit_runs_to_max_epochs (fuel : nat) (model : lightning_module) (o : optimizer)
    (train_loader : list batch) (val_loader : option (list batch)) (M : Z) (w : world) :
  configure_optimizers model = PyOptimizer o →
  (∀ b i, is_Some (loss_of (model_training_step model b i))) →
  strategy_is_fsdp (self w) = false → plain_run w →
  max_epochs (self w) = Some M →
  let n := Z.to_nat (Z.max 1 (M - current_epoch (self w))) in
  (n ≤ fuel)%nat →
  let r := fit fuel model train_loader val_loader None w in
  r.1 = Ret true ∧
  current_epoch (self r.2) = current_epoch (self w) + Z.of_nat n ∧
  global_step (self r.2) =
    global_step (self w) + Z.of_nat n * Z.of_nat (length train_loader) ∧
  should_stop (self r.2) = false ∧
  count is_fabric_save (trace r.2) = (count is_fabric_save (trace w) + n)%nat ∧
  count is_optimizer_step (trace r.2) =
    (count is_optimizer_step (trace w) + n * length train_loader)%nat ∧
  ∃ record, read_file (fs r.2) (checkpoint_path (self r.2)) = Some record ∧
            record !! "current_epoch" = Some (PyInt (current_epoch (self r.2))) ∧
            record !! "global_step" = Some (PyInt (global_step (self r.2))).
Proof.
  intros Hcfg Hgood Hfsdp Hplain HM n Hfuel r. subst r.
  rewrite (fit_unfold fuel model o) by done. cbn zeta.
  match goal with
  | |- context [fit_epochs fuel model train_loader val_loader PyNone ?l ?w0] =>
      destruct (fit_epochs_to_limit model train_loader val_loader l M n Hgood fuel w0
                  (fit_state (PyOptimizer o) PyNone))
        as (w' & -> & He & Hg & Hdir & (d' & Hfile & Hce & Hgs) & Hsave & Hopt & _)
  end.
  - done.
  - cbn. apply lookup_insert_eq.
  - done.
  - cbn. subst n. lia.
  - done.
  - cbn in *. split_and!; try done. by exists d'.
Qed.

Lemma fit_runs_to_max_epochs_witness :
  let w := fresh_world (trainer_with 1 (Some 0) "ckpts") in
  let r := fit 1 validating_module [Batch 0; Batch 1] (Some [Batch 0]) None w in
  r.1 = Ret true ∧
  current_epoch (self r.2) = 0 + 1 ∧
  global_step (self r.2) = 0 + 1 * 2 ∧
  should_stop (self r.2) = false ∧
  count is_fabric_save (trace r.2) = 1%nat ∧
  count is_optimizer_step (trace r.2) = 2%nat ∧
  ∃ record, read_file (fs r.2) (checkpoint_path (self r.2)) = Some record ∧
            record !! "current_epoch" = Some (PyInt (current_epoch (self r.2))) ∧
            record !! "global_step" = Some (PyInt (global_step (self r.2))).
Proof.
  intros w.
  apply (fit_runs_to_max_epochs 1 validating_module (Optimizer "adam")
           [Batch 0; Batch 1] (Some [Batch 0]) 0 w); try reflexivity.
  - intros b i. by eexists.
  - by split_and!.
Defined.

(** X22. Under the same conditions but with neither [max_epochs] nor
    [max_steps], the loop of [fit] never ends: after any number of epochs it
    is still running, with one checkpoint written per epoch. *)
Theorem fit_without_limits_never_stops (fuel : nat) (model : lightning_module)
    (o : optimizer) (train_loader : list batch) (val_loader : option (list batch))
    (w : world) :
  configure_optimizers model = PyOptimizer o →
  (∀ b i, is_Some (loss_of (model_training_step model b i))) →
  strategy_is_fsdp (self w) = false → plain_run w →
  max_epochs (self w) = None →
  let r := fit fuel model train_loader val_loader None w in
  r.1 = Ret false ∧
  should_stop (self r.2) = false ∧
  current_epoch (self r.2) = current_epoch (self w) + Z.of_nat fuel ∧
  count is_fabric_save (trace r.2) = (count is_fabric_save (trace w) + fuel)%nat.
Proof.
  intros Hcfg Hgood Hfsdp Hplain HM r. subst r.
  rewrite (fit_unfold fuel model o) by done. cbn zeta.
  match goal with
  | |- context [fit_epochs fuel model train_loader val_loader PyNone ?l ?w0] =>
      destruct (fit_epochs_unlimited model train_loader val_loader l Hgood fuel w0
                  (fit_state (PyOptimizer o) PyNone))
        as (w' & -> & Hs & He & Hsave)
  end.
  - done.
  - cbn. apply lookup_insert_eq.
  - done.
  - cbn in *. done.
Qed.

Lemma fit_without_limits_never_stops_witness :
  let w := fresh_world (trainer_with 1 None "ckpts") in
  let r := fit 4 validating_module [Batch 0; Batch 1] (Some [Batch 0]) None w in
  r.1 = Ret false ∧
  should_stop (self r.2) = false ∧
  current_epoch (self r.2) = 0 + 4 ∧
  count is_fabric_save (trace r.2) = 4%nat.
Proof.
  intros w.
  apply (fit_without_limits_never_stops 4 validating_module (Optimizer "adam")
           [Batch 0; Batch 1] (Some [Batch 0]) w); try reflexivity.
  - intros b i. by eexists.
  - by split_and!.
Defined.

(** X23. With [validation_frequency = 0], [fit] raises
    [ZeroDivisionError] in its first epoch, after the training loop has run
    and before the epoch is counted or any checkpoint is written. *)
Theorem fit_zero_validation_frequency (fuel : nat) (model : lightning_module)
    (o : optimizer) (train_loader : list batch) (val_loader : option (list batch))
    (w : world) :
  configure_optimizers model = PyOptimizer o →
  (∀ b i, is_Some (loss_of (model_training_step model b i))) →
  strategy_is_fsdp (self w) = false →
  grad_accum_steps (self w) = 1 → should_stop (self w) = false →
  max_steps (self w) = None → validation_frequency (self w) = 0 →
  let r := fit (S fuel) model train_loader val_loader None w in
  r.1 = Raise ZeroDivisionError ∧
  current_epoch (self r.2) = current_epoch (self w) ∧
  count is_optimizer_step (trace r.2) =
    (count is_optimizer_step (trace w) + length train_loader)%nat ∧
  count is_fabric_save (trace r.2) = count is_fabric_save (trace w).
Proof.
  intros Hcfg Hgood Hfsdp HA Hstop Hmax Hvf r. subst r.
  rewrite (fit_unfold (S fuel) model o) by done. cbn zeta.
  rewrite fit_epochs_zero_validation_frequency by done.
  cbn [fst snd]. rewrite train_loop_run by done.
  cbn [self trace]. rewrite Hmax. unfold batches_run, stops, steps_left. cbn [id].
  split_and!; [done|done| |]; cbn [snd trace].
  - rewrite !count_app. destruct (count_train_events (length train_loader) 0) as [_ ->].
    unfold count. cbn. lia.
  - rewrite !count_app, train_events_no_save. unfold count. cbn. lia.
Qed.

Lemma fit_zero_validation_frequency_witness :
  let w := fresh_world {| grad_accum_steps := 1; should_stop := false; global_step := 0;
                          current_epoch := 0; max_steps := None; max_epochs := Some 3;
                          validation_frequency := 0;
                          _current_train_return := OMapping [];
                          _current_val_return := OMapping [];
                          checkpoint_dir := "ckpts"; strategy_is_fsdp := false |} in
  let r := fit 3 validating_module [Batch 0; Batch 1] None None w in
  r.1 = Raise ZeroDivisionError ∧
  current_epoch (self r.2) = 0 ∧
  count is_optimizer_step (trace r.2) = 2%nat ∧
  count is_fabric_save (trace r.2) = 0%nat.
Proof.
  intros w.
  apply (fit_zero_validation_frequency 2 validating_module (Optimizer "adam")
           [Batch 0; Batch 1] None w); try reflexivity.
  intros b i. by eexists.
Defined.

(** ** [fit] with a scheduler, and resuming *)

Local Arguments load : simpl never.

Lemma last_output_mapping step batches :
  (∀ b i, mapping_output (step b i)) →
  ∀ idx old, mapping_output old → mapping_output (last_output step batches idx old).
Proof.
  intros Hstep. induction batches as [|b rest IH]; intros idx old Hold; cbn; [done|].
  apply IH, Hstep.
Qed.

(** The first epoch of [fit] under a scheduler configuration that is due at
    the end of the epoch and monitors the validation loss, when there is
    none. *)
Lemma fit_epochs_monitor_unresolved model tl (cfg : gmap string cfgval) l fuel w val0 :
  (∀ b i, is_Some (loss_of (model_training_step model b i))) →
  (∀ b i, mapping_output (model_training_step model b i)) →
  mapping_output (_current_train_return (self w)) →
  _current_val_return (self w) = OMapping val0 → NoDup val0.*1 →
  od_get "loss" val0 = None →
  cfg !! "interval" = Some (CStr "epoch") → cfg !! "frequency" = Some (CInt 1) →
  cfg !! "monitor" = Some (CStr "val_loss") →
  grad_accum_steps (self w) = 1 → should_stop (self w) = false →
  max_steps (self w) = None → validation_frequency (self w) ≠ 0 →
  ∃ keys,
    fit_epochs (S fuel) model tl None (PyMapping cfg) l w =
      (Raise (KeyError_invalid_monitor (CStr "val_loss") keys),
       (train_loop model tl None (PyMapping cfg) w).2) ∧
    Some "val_loss" ∉ keys.
Proof.
  intros Hgood Hmap Htr0 Hval0 Hndv Hnoloss Hi Hf Hmon HA Hstop Hmax Hvf.
  assert (Hquiet : ∀ v w', step_scheduler model (PyMapping cfg) "step" v w' = (Ret (), w')).
  { intros v w'. by apply (step_scheduler_wrong_interval _ _ (CStr "epoch")). }
  destruct (last_output_mapping (model_training_step model) tl Hmap 0
              (_current_train_return (self w)) Htr0) as (train & Htrain & Hndt).
  destruct (monitor_lookup_closed train val0 Hndt Hndv) as (_ & _ & Hv).
  specialize (Hv "loss"). rewrite Hnoloss in Hv.
  change (monitor_lookup (CStr "val_loss") (candidate_vals train val0) = None) in Hv.
  exists (od_keys (candidate_vals train val0)). split.
  - rewrite fit_epochs_S.
    erewrite bind_Ret; [|reflexivity]. cbn [self]. rewrite Hstop.
    erewrite bind_Ret; [|by apply train_loop_run_quiet].
    rewrite train_loop_run_quiet by done.
    rewrite Hmax. unfold batches_run, stops, steps_left. cbn [id snd].
    rewrite firstn_all.
    erewrite bind_Ret; [|by apply should_validate_run].
    match goal with
    | |- context [if ?c then val_loop _ _ _ else _] => destruct c
    end; (erewrite bind_Ret; [|reflexivity]);
      (erewrite bind_Ret; [|reflexivity]);
      (erewrite bind_Raise; [reflexivity|]);
      cbn [self current_epoch with_global_step with_current_train_return];
      (rewrite (step_scheduler_due model cfg "epoch" _ 1 _ train val0 (CStr "val_loss"));
        [by rewrite Hv|done|done|done|by rewrite Z.mod_1_r
        |cbn; by rewrite Htrain|cbn; by rewrite Hval0|done]).
  - intros Hin. unfold od_keys in Hin.
    apply list_elem_of_fmap in Hin as ([k x] & Hk & Hin). cbn in Hk. subst k.
    rewrite candidate_vals_closed in Hin by done.
    apply elem_of_cons in Hin as [[=]|Hin].
    apply elem_of_app in Hin as [Hin|Hin].
    + by apply list_elem_of_fmap in Hin as ([k t] & [=] & _).
    + apply list_elem_of_fmap in Hin as ([k t] & [= Hk _] & Hin).
      change ("loss" = k) in Hk. subst k.
      assert (Hnone : "loss" ∉ val0.*1).
      { clear -Hnoloss. induction val0 as [|[k' v'] val0 IH]; cbn in *.
        - apply not_elem_of_nil.
        - destruct (decide ("loss" = k')); [done|].
          apply not_elem_of_cons. split; [done|]. by apply IH. }
      apply Hnone. by apply (list_elem_of_fmap_2 fst _ ("loss", t)).
Qed.

Local Arguments os_path_isdir : simpl never.
Local Arguments get_latest_checkpoint : simpl never.

(** The prefix of [fit] for a module that configures an optimizer, without a
    checkpoint directory to resume from. *)
Lemma fit_unfold_cfg fuel model o cfg tl vl w :
  _parse_optimizers_schedulers (configure_optimizers model) = Ret (PyOptimizer o, cfg) →
  strategy_is_fsdp (self w) = false →
  fit fuel model tl vl None w =
    let r := fit_epochs fuel model tl vl cfg (fresh (dom (heap w)))
               {| self := self w;
                  heap := <[fresh (dom (heap w)) := fit_state (PyOptimizer o) cfg]> (heap w);
                  grad_enabled := grad_enabled w; fs := fs w; trace := trace w |} in
    match r.1 with
    | Ret true => (Ret true, (set_self (with_should_stop false) r.2).2)
    | Ret false => (Ret false, r.2)
    | Raise e => (Raise e, r.2)
    end.
Proof.
  intros Hcfg Hfsdp. unfold fit, fit_state. run_M.
  rewrite Hfsdp, Hcfg. cbn.
  destruct (fit_epochs _ _ _ _ _ _ _) as [[[]|e] w1]; reflexivity.
Qed.

(** X28. A scheduler configured without an interval, a frequency and a
    monitor gets the defaults, so its step is due at the end of the first
    epoch and monitors [val_loss].  Without a validation loader, and with no
    validation loss stored, [fit] raises the invalid-monitor error after the
    first training epoch: the epoch is not counted and no checkpoint is
    written. *)
Theorem fit_default_monitor_needs_validation (fuel : nat) (model : lightning_module)
    (o : optimizer) (m : gmap string cfgval) (train_loader : list batch) (w : world)
    (val0 : list (string * tensor)) :
  configure_optimizers model = PySeq [PyOptimizer o; PyMapping m] →
  m !! "interval" = None → m !! "frequency" = None → m !! "monitor" = None →
  (∀ b i, is_Some (loss_of (model_training_step model b i))) →
  (∀ b i, mapping_output (model_training_step model b i)) →
  mapping_output (_current_train_return (self w)) →
  _current_val_return (self w) = OMapping val0 → NoDup val0.*1 →
  od_get "loss" val0 = None →
  strategy_is_fsdp (self w) = false → plain_run w →
  let r := fit (S fuel) model train_loader None None w in
  (∃ keys, r.1 = Raise (KeyError_invalid_monitor (CStr "val_loss") keys) ∧
           Some "val_loss" ∉ keys) ∧
  current_epoch (self r.2) = current_epoch (self w) ∧
  count is_optimizer_step (trace r.2) =
    (count is_optimizer_step (trace w) + length train_loader)%nat ∧
  count is_fabric_save (trace r.2) = count is_fabric_save (trace w).
Proof.
  intros Hcfg Hi Hf Hmon Hgood Hmap Htr0 Hval0 Hndv Hnoloss Hfsdp (HA & Hstop & Hmax & Hvf) r.
  subst r.
  assert (Hquiet : ∀ v w', step_scheduler model (PyMapping (m ∪ _lr_sched_defaults)) "step" v w'
                           = (Ret (), w')).
  { intros v w'. apply (step_scheduler_wrong_interval _ _ (CStr "epoch")); [|done].
    by rewrite lookup_union_r. }
  rewrite (fit_unfold_cfg (S fuel) model o (PyMapping (m ∪ _lr_sched_defaults)));
    [|by rewrite Hcfg|done].
  cbn zeta.
  match goal with
  | |- context [fit_epochs (S fuel) model train_loader None _ ?l ?w0] =>
      destruct (fit_epochs_monitor_unresolved model train_loader (m ∪ _lr_sched_defaults)
                  l fuel w0 val0) as (keys & -> & Hkeys)
  end; try done; try (by rewrite lookup_union_r).
  cbn [fst snd]. rewrite train_loop_run_quiet by done.
  cbn [self trace snd]. rewrite Hmax. unfold batches_run, stops, steps_left. cbn [id].
  split_and!; [by exists keys|done| |].
  - rewrite !count_app. destruct (count_train_events (length train_loader) 0) as [_ ->].
    unfold count. cbn. lia.
  - rewrite !count_app, train_events_no_save. unfold count. cbn. lia.
Qed.

Lemma fit_default_monitor_needs_validation_witness :
  let w := fresh_world (trainer_with 1 (Some 3) "ckpts") in
  let r := fit 3 scheduled_module [Batch 0; Batch 1] None None w in
  (∃ keys, r.1 = Raise (KeyError_invalid_monitor (CStr "val_loss") keys) ∧
           Some "val_loss" ∉ keys) ∧
  current_epoch (self r.2) = 0 ∧
  count is_optimizer_step (trace r.2) = 2%nat ∧
  count is_fabric_save (trace r.2) = 0%nat.
Proof.
  intros w.
  apply (fit_default_monitor_needs_validation 2 scheduled_module (Optimizer "adam")
           {[ "scheduler" := CScheduler (LRScheduler "plateau") ]}
           [Batch 0; Batch 1] w []); try reflexivity.
  - intros b i. by eexists.
  - intros b i. eexists. split; [reflexivity|]. apply (bool_decide_unpack _). reflexivity.
  - exists []. split; [reflexivity|]. constructor.
  - constructor.
  - by split_and!.
Defined.

Lemma leftover_fit_state checkpoint optimizer cfg :
  dom checkpoint = {["model"; "optim"; "scheduler"; "global_step"; "current_epoch"]} →
  leftover checkpoint (fit_state optimizer cfg) = ∅.
Proof.
  intros Hdom. apply (dom_empty_iff_L (D := gset string)). unfold leftover, fit_state.
  rewrite !dom_delete_L, dom_difference_L, Hdom, !dom_insert_L. set_solver.
Qed.

(** The prefix of [fit] when the latest checkpoint of the trainer's own
    directory is loaded. *)
Lemma fit_unfold_resume fuel model o tl vl p path checkpoint g e w :
  configure_optimizers model = PyOptimizer o →
  strategy_is_fsdp (self w) = false →
  os_path_isdir (fs w) p = true →
  get_latest_checkpoint (fs w) (checkpoint_dir (self w)) = Some path →
  read_file (fs w) path = Some checkpoint →
  dom checkpoint = {["model"; "optim"; "scheduler"; "global_step"; "current_epoch"]} →
  checkpoint !! "global_step" = Some (PyInt g) →
  checkpoint !! "current_epoch" = Some (PyInt e) →
  fit fuel model tl vl (Some p) w =
    let l := fresh (dom (heap w)) in
    let d := fit_state (PyOptimizer o) PyNone in
    let r := fit_epochs fuel model tl vl PyNone l
               {| self := (if epochs_done (max_epochs (self w)) e
                           then with_should_stop true else id)
                            (with_current_epoch e (with_global_step g (self w)));
                  heap := <[l := filter (λ kv, kv.1 ∈ dom d) checkpoint]> (<[l := d]> (heap w));
                  grad_enabled := grad_enabled w; fs := fs w;
                  trace := trace w ++ [fabric_load_ev path] |} in
    match r.1 with
    | Ret true => (Ret true, (set_self (with_should_stop false) r.2).2)
    | Ret false => (Ret false, r.2)
    | Raise e => (Raise e, r.2)
    end.
Proof.
  intros Hcfg Hfsdp Hisdir Hlatest Hfile Hdom Hg He. unfold fit. run_M.
  rewrite Hfsdp, Hcfg. cbn. rewrite Hisdir, Hlatest.
  match goal with
  | |- context [load (Some ?l) path ?w0] =>
      rewrite (load_run w0 l (fit_state (PyOptimizer o) PyNone) checkpoint path g e)
  end.
  - rewrite leftover_fit_state by done. rewrite bool_decide_eq_true_2 by done.
    cbn. unfold epochs_done, fit_state.
    destruct (max_epochs (self w)) as [M|]; [destruct (bool_decide (M ≤ e))|]; cbn;
      destruct (fit_epochs _ _ _ _ _ _ _) as [[[]|x] w1]; reflexivity.
  - cbn. apply lookup_insert_eq.
  - done.
  - unfold fit_state. rewrite Hdom, !dom_insert_L. set_solver.
  - unfold fit_state. rewrite !dom_insert_L. set_solver.
  - unfold fit_state. rewrite !dom_insert_L. set_solver.
  - done.
  - done.
Qed.

(** X29. With a checkpoint directory passed to [fit], the latest
    checkpoint of the trainer's own directory is loaded, once, and [fit]
    continues from its counters for [max 0 (max_epochs - epoch)] epochs:
    none at all when the checkpoint has reached the limit. *)
Theorem fit_resumes_from_checkpoint (fuel : nat) (model : lightning_module) (o : optimizer)
    (train_loader : list batch) (val_loader : option (list batch)) (p path : string)
    (checkpoint : gmap string pyobj) (g e M : Z) (w : world) :
  configure_optimizers model = PyOptimizer o →
  (∀ b i, is_Some (loss_of (model_training_step model b i))) →
  strategy_is_fsdp (self w) = false → plain_run w →
  max_epochs (self w) = Some M →
  os_path_isdir (fs w) p = true →
  get_latest_checkpoint (fs w) (checkpoint_dir (self w)) = Some path →
  read_file (fs w) path = Some checkpoint →
  dom checkpoint = {["model"; "optim"; "scheduler"; "global_step"; "current_epoch"]} →
  checkpoint !! "global_step" = Some (PyInt g) →
  checkpoint !! "current_epoch" = Some (PyInt e) →
  let n := Z.to_nat (M - e) in
  (n ≤ fuel)%nat →
  let r := fit fuel model train_loader val_loader (Some p) w in
  r.1 = Ret true ∧
  current_epoch (self r.2) = e + Z.of_nat n ∧
  global_step (self r.2) = g + Z.of_nat n * Z.of_nat (length train_loader) ∧
  should_stop (self r.2) = false ∧
  count is_fabric_load (trace r.2) = S (count is_fabric_load (trace w)) ∧
  count is_fabric_save (trace r.2) = (count is_fabric_save (trace w) + n)%nat ∧
  count is_optimizer_step (trace r.2) =
    (count is_optimizer_step (trace w) + n * length train_loader)%nat.
Proof.
  intros Hcfg Hgood Hfsdp (HA & Hstop & Hmax & Hvf) HM Hisdir Hlatest Hfile Hdom Hg He n
         Hfuel r. subst r.
  rewrite (fit_unfold_resume fuel model o _ _ p path checkpoint g e) by done.
  cbn zeta. rewrite HM. unfold epochs_done.
  destruct (decide (M ≤ e)) as [Hle|Hgt].
  - rewrite bool_decide_eq_true_2 by done.
    rewrite fit_epochs_stopped by done.
    assert (n = 0%nat) as -> by (subst n; lia).
    cbn. rewrite count_snoc. cbn. split_and!; try done; try lia.
    + rewrite count_snoc. cbn. lia.
    + rewrite count_snoc. cbn. lia.
  - rewrite bool_decide_eq_false_2 by done. cbn [id].
    match goal with
    | |- context [fit_epochs fuel model train_loader val_loader PyNone ?l ?w0] =>
        destruct (fit_epochs_to_limit model train_loader val_loader l M n Hgood fuel w0
                    (filter (λ kv, kv.1 ∈ dom (fit_state (PyOptimizer o) PyNone)) checkpoint))
          as (w' & -> & He' & Hg' & Hdir & _ & Hsave & Hopt & Hload)
    end.
    + by split_and!.
    + cbn. apply lookup_insert_eq.
    + done.
    + cbn. subst n. lia.
    + done.
    + cbn in *. rewrite !count_snoc in *. cbn in *.
      split_and!; try done; try lia.
Qed.

Lemma fit_resumes_from_checkpoint_witness :
  let w := resume_world (trainer_with 1 (Some 3) "resume") in
  let r := fit 2 validating_module [Batch 0; Batch 1] None (Some "resume") w in
  r.1 = Ret true ∧
  current_epoch (self r.2) = 1 + 2 ∧
  global_step (self r.2) = 7 + 2 * 2 ∧
  should_stop (self r.2) = false ∧
  count is_fabric_load (trace r.2) = 1%nat ∧
  count is_fabric_save (trace r.2) = 2%nat ∧
  count is_optimizer_step (trace r.2) = 4%nat.
Proof.
  intros w.
  apply (fit_resumes_from_checkpoint 2 validating_module (Optimizer "adam")
           [Batch 0; Batch 1] None "resume" "resume/epoch-0001.ckpt" resume_record 7 1 3 w);
    try reflexivity; try lia; try (by split_and!); try (intros b i; by eexists).
Defined.
